(** * Frame-sampling and detection-overlay pipeline of the dashboard

    A shallow embedding of the two [VideoFeed] React components of the
    repository:

    - the capture variant (camera stream drawn by a [requestAnimationFrame]
      loop, module [Capture]);
    - the remote-stream variant of
      [dashboard/src/components/VideoFeed.tsx] (server-pushed image polled by
      a 100 ms interval, module [Remote]).

    Both are event-driven programs on a single-threaded event loop.  Every
    callback of the source (effect body, effect clean-up, animation-frame
    callback, interval callback, promise continuation, DOM event handler)
    becomes a command over an explicit component state, and the browser is
    the environment that chooses which event comes next and what it carries
    (clock readings, readiness of the video, response of the server). *)

From Stdlib Require Import ZArith List String Bool Lia.
Import ListNotations.
Set Warnings "-register-all".
Local Open Scope string_scope.
Local Open Scope list_scope.
Local Open Scope Z_scope.

(** ** JavaScript values as the components see them *)

Module JS.

(** A JSON number is only tested for truthiness and printed, never
    computed with; it is kept as those two observations. *)
Record number := Number { num_truthy : bool; num_text : string }.

(** What [response.json()] can resolve to (plus [undefined], the result of
    reading a missing property). *)
Inductive value :=
| Undefined
| Null
| Bool (b : bool)
| Num (n : number)
| Str (s : string)
| Arr (items : list value)
| Obj (fields : list (string * value)).

(** What a [catch] clause can receive. *)
Inductive thrown :=
| ErrorObject (message : string)   (* an instance of Error *)
| NotAnError.

(** Error monad of a [try] block. *)
Definition attempt (A : Type) : Type := (thrown + A)%type.

Definition bind {A B} (c : attempt A) (k : A -> attempt B) : attempt B :=
  match c with
  | inl e => inl e
  | inr a => k a
  end.

Fixpoint lookup (k : string) (fields : list (string * value)) : value :=
  match fields with
  | [] => Undefined
  | (k', v) :: rest => if String.eqb k k' then v else lookup k rest
  end.

(** [TypeError] message of a property read on [null] or [undefined]. *)
Definition nullish_read_message (base k : string) : string :=
  ("Cannot read properties of " ++ base ++ " (reading '" ++ k ++ "')")%string.

(** [v.k] for a key [k] that no built-in prototype defines (the components
    read [detail], [detections] and [processed_image]). *)
Definition get (v : value) (k : string) : attempt value :=
  match v with
  | Undefined => inl (ErrorObject (nullish_read_message "undefined" k))
  | Null => inl (ErrorObject (nullish_read_message "null" k))
  | Obj fields => inr (lookup k fields)
  | Bool _ | Num _ | Str _ | Arr _ => inr Undefined
  end.

(** ToBoolean. *)
Definition truthy (v : value) : bool :=
  match v with
  | Undefined | Null => false
  | Bool b => b
  | Num n => num_truthy n
  | Str s => negb (String.eqb s "")
  | Arr _ | Obj _ => true
  end.

(** [a || b]. *)
Definition or_else (a b : value) : value := if truthy a then a else b.

(** ToString, for the values a parsed JSON text gives when no object in it
    has a member named [toString] or [valueOf] (with such a member the
    conversion of that object can throw instead). *)
Fixpoint to_string (v : value) : string :=
  match v with
  | Undefined => "undefined"
  | Null => "null"
  | Bool true => "true"
  | Bool false => "false"
  | Num n => num_text n
  | Str s => s
  | Obj _ => "[object Object]"
  | Arr items =>
      (fix join (l : list value) : string :=
         match l with
         | [] => ""
         | x :: rest =>
             let here := match x with
                         | Undefined | Null => ""
                         | _ => to_string x
                         end in
             match rest with
             | [] => here
             | _ :: _ => (here ++ "," ++ join rest)%string
             end
         end) items
  end.

(** [new Error(m)] for a defined [m]. *)
Definition new_Error (m : value) : thrown := ErrorObject (to_string m).

(** [error instanceof Error ? error.message : fallback]. *)
Definition message_or (e : thrown) (fallback : string) : string :=
  match e with
  | ErrorObject m => m
  | NotAnError => fallback
  end.

(** Truthiness of a [string | null] state value. *)
Definition truthy_message (e : option string) : bool :=
  match e with
  | None => false
  | Some s => negb (String.eqb s "")
  end.

End JS.

(** ** What both components share *)

(** The three [useState] cells. *)
Record Hooks := mkHooks {
  detections : JS.value;
  isProcessing : bool;
  error : option string
}.

(** [useState([])], [useState(false)], [useState(null)]. *)
Definition initial_hooks : Hooks :=
  {| detections := JS.Arr []; isProcessing := false; error := None |}.

Record Canvas := mkCanvas { width : Z; height : Z }.

(** A canvas element starts at 300 x 150. *)
Definition default_canvas : Canvas := {| width := 300; height := 150 |}.

(** How [response.json()] settles. *)
Inductive Body :=
| JsonRejects (e : JS.thrown)
| Json (v : JS.value).

(** How [fetch] settles. *)
Inductive Outcome :=
| FetchRejects (e : JS.thrown)
| Responds (ok : bool) (body : Body).

Definition read_json (b : Body) : JS.attempt JS.value :=
  match b with
  | JsonRejects e => inl e
  | Json v => inr v
  end.

(** Observable actions, in program order. *)
Inductive Effect :=
| DrawFrame                        (* ctx.drawImage(source, 0, 0) *)
| ResizeCanvas (w h : Z)           (* canvas.width = w; canvas.height = h *)
| RequestFrame (handle : Z)        (* requestAnimationFrame(drawFrame) *)
| StartInterval                    (* setInterval(processFrame, 100) *)
| StopInterval                     (* clearInterval(interval) *)
| StopTracks                       (* track.stop() on every track *)
| Fetch (id : nat) (issued : Z)    (* fetch(POST /detect) *)
| LoadAnnotated (src : string)     (* img.src = data URI of the annotated image *)
| SetIsProcessing (b : bool)
| SetDetections (v : JS.value)
| SetError (e : option string)
| ConsoleError.

Definition is_fetch (e : Effect) : bool :=
  match e with Fetch _ _ => true | _ => false end.

Definition is_reset (e : Effect) : bool :=
  match e with SetIsProcessing false => true | _ => false end.

Definition is_draw (e : Effect) : bool :=
  match e with DrawFrame => true | _ => false end.

Definition is_resize (e : Effect) : bool :=
  match e with ResizeCanvas _ _ => true | _ => false end.

Definition is_request_frame (e : Effect) : bool :=
  match e with RequestFrame _ => true | _ => false end.

Definition count (p : Effect -> bool) (l : list Effect) : nat :=
  List.length (filter p l).

(** Issue times of the requests in an effect sequence, oldest first. *)
Fixpoint issue_times (l : list Effect) : list Z :=
  match l with
  | [] => []
  | Fetch _ t :: rest => t :: issue_times rest
  | _ :: rest => issue_times rest
  end.

(** Consecutive entries are more than [gap] apart. *)
Fixpoint spaced (gap : Z) (l : list Z) : Prop :=
  match l with
  | [] => True
  | t :: rest =>
      match rest with
      | [] => True
      | t' :: _ => t' - t > gap /\ spaced gap rest
      end
  end.

(** The sample decision as the specification words it. *)
Definition SampleDecision (stride min_gap tick_counter now last_sample_time : Z) : bool :=
  (tick_counter mod stride =? 0) && (now - last_sample_time >? min_gap).

(** ** Commands

    A callback is a command: it transforms the component state and emits the
    actions it performs, in order. *)

Definition Cmd (S : Type) : Type := S -> S * list Effect.

Definition skip {S} : Cmd S := fun st => (st, []).

Definition emit {S} (e : Effect) : Cmd S := fun st => (st, [e]).

Definition modify {S} (f : S -> S) : Cmd S := fun st => (f st, []).

Definition seq {S} (c1 c2 : Cmd S) : Cmd S :=
  fun st =>
    let (st1, out1) := c1 st in
    let (st2, out2) := c2 st1 in
    (st2, out1 ++ out2).

Notation "c1 ;; c2" := (seq c1 c2) (at level 61, right associativity).

(** Runs a sequence of events through a step function, oldest first. *)
Fixpoint run_with {S E} (step : E -> Cmd S) (events : list E) : Cmd S :=
  match events with
  | [] => skip
  | e :: rest => step e ;; run_with step rest
  end.

(** ** The part of [processFrame] after [await fetch(...)] that both variants
    share: the non-2xx branch.

    [const errorData = await response.json();
     throw new Error(errorData.detail || 'Detection failed');] *)
Definition reject_response (body : Body) : JS.thrown :=
  match JS.bind (read_json body) (fun errorData => JS.get errorData "detail") with
  | inl e => e
  | inr detail => JS.new_Error (JS.or_else detail (JS.Str "Detection failed"))
  end.

(** The message the [catch] clause hands to [setError]. *)
Definition surfaced (e : JS.thrown) : string :=
  JS.message_or e "Failed to process frame".

(** ** Capture variant *)

Module Capture.

Inductive Phase := Fresh | Live | Gone.

Inductive Device := NotRequested | Pending | Granted | Denied.

(** The [useRef] cells.  [canvasRef] tells whether React has the canvas
    element attached to the ref. *)
Record Refs := mkRefs {
  frameCountRef : Z;
  lastDetectionRef : Z;
  animationFrameRef : Z;
  streamRef : bool;
  canvasRef : bool
}.

Record Browser := mkBrowser {
  device : Device;                (* the getUserMedia promise *)
  tracks_live : bool;             (* the stream has a track that was not stopped *)
  listening : bool;               (* loadedmetadata listener attached *)
  canvas : Canvas;                (* the element bound to [canvas] in the effect *)
  pending_frame : option Z;       (* handle of the scheduled drawFrame callback *)
  next_handle : Z;
  outstanding : list nat;         (* requests issued and not settled *)
  next_request : nat
}.

(** [captured] holds the state values of the render whose closures the
    effect uses: the dependency list is empty, so the effect runs once and
    [drawFrame] keeps calling the [processFrame] of that render. *)
Record State := mkState {
  hooks : Hooks;
  refs : Refs;
  browser : Browser;
  phase : Phase;
  captured : Hooks;
  has_cleanup : bool
}.

(** What the browser presents to one run of [drawFrame]: whether
    [video.readyState === video.HAVE_ENOUGH_DATA], the two readings of
    [Date.now()] (in [drawFrame], then in [processFrame]) and the current
    dimensions of the video. *)
Record Tick := mkTick {
  ready : bool;
  now : Z;
  now_issue : Z;
  videoWidth : Z;
  videoHeight : Z
}.

(** What the environment can deliver.  It is freer than a browser: the tick
    of [DeviceGranted] is the one the first, synchronous [drawFrame()] sees,
    and a browser has no data for a video element that was created in the
    same task (see [first_frame_without_data]); and the image element of this
    variant has no source, so that a browser fires neither [ImgLoad] nor
    [ImgError]. *)
Inductive Event :=
| Mount (has_ctx : bool)
| DeviceGranted (t : Tick)
| DeviceDenied
| LoadedMetadata (w h : Z)
| AnimationFrame (t : Tick)
| Response (id : nat) (o : Outcome)
| ImgLoad
| ImgError
| Unmount.

Definition initial : State :=
  {| hooks := initial_hooks;
     refs := {| frameCountRef := 0; lastDetectionRef := 0; animationFrameRef := 0;
                streamRef := false; canvasRef := false |};
     browser := {| device := NotRequested; tracks_live := false; listening := false;
                   canvas := default_canvas; pending_frame := None; next_handle := 1;
                   outstanding := []; next_request := 0%nat |};
     phase := Fresh;
     captured := initial_hooks;
     has_cleanup := false |}.

Definition mounted (st : State) : bool :=
  match phase st with Live => true | _ => false end.

Definition with_hooks (f : Hooks -> Hooks) (st : State) : State :=
  {| hooks := f (hooks st); refs := refs st; browser := browser st;
     phase := phase st; captured := captured st; has_cleanup := has_cleanup st |}.

Definition with_refs (f : Refs -> Refs) (st : State) : State :=
  {| hooks := hooks st; refs := f (refs st); browser := browser st;
     phase := phase st; captured := captured st; has_cleanup := has_cleanup st |}.

Definition with_browser (f : Browser -> Browser) (st : State) : State :=
  {| hooks := hooks st; refs := refs st; browser := f (browser st);
     phase := phase st; captured := captured st; has_cleanup := has_cleanup st |}.

(** A state setter.  React drops an update addressed to a component that is
    no longer mounted; the call itself is still made. *)
Definition set_state (f : Hooks -> Hooks) : Cmd State :=
  modify (fun st => if mounted st then with_hooks f st else st).

Definition setIsProcessing (b : bool) : Cmd State :=
  emit (SetIsProcessing b) ;;
  set_state (fun h => {| detections := detections h; isProcessing := b; error := error h |}).

Definition setDetections (v : JS.value) : Cmd State :=
  emit (SetDetections v) ;;
  set_state (fun h => {| detections := v; isProcessing := isProcessing h; error := error h |}).

Definition setError (e : option string) : Cmd State :=
  emit (SetError e) ;;
  set_state (fun h => {| detections := detections h; isProcessing := isProcessing h; error := e |}).

Definition set_frameCount (n : Z) (r : Refs) : Refs :=
  {| frameCountRef := n; lastDetectionRef := lastDetectionRef r;
     animationFrameRef := animationFrameRef r; streamRef := streamRef r;
     canvasRef := canvasRef r |}.

Definition set_lastDetection (t : Z) (r : Refs) : Refs :=
  {| frameCountRef := frameCountRef r; lastDetectionRef := t;
     animationFrameRef := animationFrameRef r; streamRef := streamRef r;
     canvasRef := canvasRef r |}.

Definition set_animationFrame (h : Z) (r : Refs) : Refs :=
  {| frameCountRef := frameCountRef r; lastDetectionRef := lastDetectionRef r;
     animationFrameRef := h; streamRef := streamRef r; canvasRef := canvasRef r |}.

Definition set_stream (b : bool) (r : Refs) : Refs :=
  {| frameCountRef := frameCountRef r; lastDetectionRef := lastDetectionRef r;
     animationFrameRef := animationFrameRef r; streamRef := b; canvasRef := canvasRef r |}.

Definition set_canvasRef (b : bool) (r : Refs) : Refs :=
  {| frameCountRef := frameCountRef r; lastDetectionRef := lastDetectionRef r;
     animationFrameRef := animationFrameRef r; streamRef := streamRef r; canvasRef := b |}.

Definition set_device (d : Device) (live listen : bool) (b : Browser) : Browser :=
  {| device := d; tracks_live := live; listening := listen; canvas := canvas b;
     pending_frame := pending_frame b; next_handle := next_handle b;
     outstanding := outstanding b; next_request := next_request b |}.

Definition set_canvas (c : Canvas) (b : Browser) : Browser :=
  {| device := device b; tracks_live := tracks_live b; listening := listening b;
     canvas := c; pending_frame := pending_frame b; next_handle := next_handle b;
     outstanding := outstanding b; next_request := next_request b |}.

Definition set_frames (p : option Z) (next : Z) (b : Browser) : Browser :=
  {| device := device b; tracks_live := tracks_live b; listening := listening b;
     canvas := canvas b; pending_frame := p; next_handle := next;
     outstanding := outstanding b; next_request := next_request b |}.

Definition set_requests (l : list nat) (next : nat) (b : Browser) : Browser :=
  {| device := device b; tracks_live := tracks_live b; listening := listening b;
     canvas := canvas b; pending_frame := pending_frame b; next_handle := next_handle b;
     outstanding := l; next_request := next |}.

Definition set_phase (p : Phase) (cap : Hooks) (cleanup : bool) (st : State) : State :=
  {| hooks := hooks st; refs := refs st; browser := browser st;
     phase := p; captured := cap; has_cleanup := cleanup |}.

(** [fetch(...)]: the request leaves and the callback suspends. *)
Definition issue (t : Z) : Cmd State :=
  fun st =>
    let id := next_request (browser st) in
    (with_browser (set_requests (outstanding (browser st) ++ [id]) (S id)) st,
     [Fetch id t]).

(** [processFrame], up to its first [await], as the closure of the render
    held in [captured]. *)
Definition processFrame (t : Tick) : Cmd State :=
  fun st =>
    if negb (canvasRef (refs st)) || isProcessing (captured st) then skip st
    else
      (setIsProcessing true ;;
       modify (with_refs (set_lastDetection (now_issue t))) ;;
       issue (now_issue t)) st.

(** The [try] block of [processFrame] after [await fetch(...)]: the value
    handed to [setDetections], or what is thrown. *)
Definition after_fetch (o : Outcome) : JS.attempt JS.value :=
  match o with
  | FetchRejects e => inl e
  | Responds false body => inl (reject_response body)
  | Responds true body =>
      JS.bind (read_json body) (fun result => JS.get result "detections")
  end.

(** [processFrame] from the settlement of [fetch] to its end. *)
Definition resume (o : Outcome) : Cmd State :=
  match after_fetch o with
  | inr dets => setDetections dets ;; setIsProcessing false
  | inl e =>
      emit ConsoleError ;; setError (Some (surfaced e)) ;; setIsProcessing false
  end.

Definition requestAnimationFrame : Cmd State :=
  fun st =>
    let h := next_handle (browser st) in
    (with_refs (set_animationFrame h)
       (with_browser (set_frames (Some h) (h + 1)) st),
     [RequestFrame h]).

(** [frameCountRef.current++] *)
Definition counted (st : State) : State :=
  with_refs (fun r => set_frameCount (frameCountRef r + 1) r) st.

(** [frameCountRef.current % 5 === 0 && now - lastDetectionRef.current > 500] *)
Definition gate (t : Tick) (st : State) : bool :=
  (Z.rem (frameCountRef (refs st)) 5 =? 0)
  && (now t - lastDetectionRef (refs st) >? 500).

Definition drawFrame (t : Tick) : Cmd State :=
  fun st =>
    if ready t then
      (emit DrawFrame ;;
       modify counted ;;
       (fun st1 => if gate t st1 then processFrame t st1 else skip st1) ;;
       requestAnimationFrame) st
    else skip st.

Definition updateCanvasSize (w h : Z) : Cmd State :=
  if negb (w =? 0) && negb (h =? 0) then
    modify (with_browser (set_canvas {| width := w; height := h |})) ;;
    emit (ResizeCanvas w h)
  else skip.

Definition stop_tracks : Cmd State :=
  fun st =>
    (with_browser (set_device (device (browser st)) false (listening (browser st))) st,
     [StopTracks]).

(** The function [setupStream] returns after the stream is up.
    [setupStream] is [async] and the effect calls it without using its
    result, so no caller ever receives this function. *)
Definition stream_cleanup : Cmd State :=
  modify (fun st =>
            with_browser (set_device (device (browser st)) (tracks_live (browser st)) false) st) ;;
  (fun st =>
     if negb (animationFrameRef (refs st) =? 0) then
       modify (with_browser (fun b =>
                 match pending_frame b with
                 | Some h => if h =? animationFrameRef (refs st)
                             then set_frames None (next_handle b) b else b
                 | None => b
                 end)) st
     else skip st) ;;
  stop_tracks.

(** The clean-up the effect itself returns. *)
Definition effect_cleanup : Cmd State :=
  fun st => if streamRef (refs st) then stop_tracks st else skip st.

Definition remove (id : nat) (l : list nat) : list nat :=
  filter (fun x => negb (Nat.eqb x id)) l.

Definition is_outstanding (id : nat) (st : State) : bool :=
  existsb (Nat.eqb id) (outstanding (browser st)).

Definition step (e : Event) : Cmd State :=
  fun st =>
    match e with
    | Mount has_ctx =>
        match phase st with
        | Fresh =>
            let st1 := with_refs (set_canvasRef true) (set_phase Live (hooks st) has_ctx st) in
            if has_ctx
            then (with_browser (set_device Pending false false) st1, [])
            else (st1, [])
        | _ => skip st
        end
    | DeviceGranted t =>
        match device (browser st) with
        | Pending =>
            (modify (with_refs (set_stream true)) ;;
             modify (with_browser (set_device Granted true true)) ;;
             drawFrame t) st
        | _ => skip st
        end
    | DeviceDenied =>
        match device (browser st) with
        | Pending =>
            (emit ConsoleError ;;
             modify (with_browser (set_device Denied false false)) ;;
             setError (Some "Failed to access camera")) st
        | _ => skip st
        end
    | LoadedMetadata w h =>
        if listening (browser st) then updateCanvasSize w h st else skip st
    | AnimationFrame t =>
        match pending_frame (browser st) with
        | Some _ =>
            (modify (with_browser (fun b => set_frames None (next_handle b) b)) ;;
             drawFrame t) st
        | None => skip st
        end
    | Response id o =>
        if is_outstanding id st then
          (modify (with_browser (fun b =>
                     set_requests (remove id (outstanding b)) (next_request b) b)) ;;
           resume o) st
        else skip st
    | ImgLoad => if mounted st then setError None st else skip st
    | ImgError =>
        if mounted st
        then (emit ConsoleError ;; setError (Some "Failed to load video stream")) st
        else skip st
    | Unmount =>
        match phase st with
        | Live =>
            ((fun st1 => if has_cleanup st1 then effect_cleanup st1 else skip st1) ;;
             modify (fun st1 =>
                       with_refs (set_canvasRef false)
                         (set_phase Gone (captured st1) (has_cleanup st1) st1))) st
        | _ => skip st
        end
    end.

Definition run : list Event -> Cmd State := run_with step.

(** Whether the frame drawn by this run of [drawFrame] is sent for
    inference. *)
Definition samples (t : Tick) (st : State) : bool :=
  existsb is_fetch (snd (drawFrame t st)).

Definition last_of (st : State) : Z := lastDetectionRef (refs st).

(** The second clock reading of a callback is not earlier than its first. *)
Definition clock_ok (e : Event) : Prop :=
  match e with
  | DeviceGranted t | AnimationFrame t => now t <= now_issue t
  | _ => True
  end.

(** What holds of every state the component can be in. *)
Definition inv (st : State) : Prop :=
  isProcessing (captured st) = false
  /\ canvasRef (refs st) = mounted st
  /\ (phase st = Fresh -> hooks st = initial_hooks).

(** What every callback other than mounting and unmounting leaves alone. *)
Definition keeps (st st' : State) : Prop :=
  phase st' = phase st
  /\ captured st' = captured st
  /\ canvasRef (refs st') = canvasRef (refs st)
  /\ (mounted st = false -> hooks st' = hooks st).

End Capture.

(** ** Remote-stream variant ([dashboard/src/components/VideoFeed.tsx]) *)

Module Remote.

Inductive Phase := Fresh | Live | Gone.

(** [canvasRef] is the element the ref points to, if any.  The component
    renders an [img] carrying [imgRef] and no element carrying [canvasRef]. *)
Record State := mkState {
  hooks : Hooks;
  imgRef : bool;
  canvasRef : option Canvas;
  phase : Phase;
  captured : Hooks;              (* state values closed over by the interval callback *)
  interval : bool;               (* the 100 ms timer is armed *)
  outstanding : list nat;
  next_request : nat
}.

(** What the browser presents to one run of the interval callback: whether
    [getContext('2d')] yields a context, the natural dimensions of the image
    and the time of the call (the callback does not read the clock). *)
Record Tick := mkTick {
  has_ctx : bool;
  naturalWidth : Z;
  naturalHeight : Z;
  at_time : Z
}.

Inductive Event :=
| Mount
| IntervalTick (t : Tick)
| Response (id : nat) (o : Outcome)
| ImgLoad
| ImgError
| Unmount.

Definition initial : State :=
  {| hooks := initial_hooks; imgRef := false; canvasRef := None; phase := Fresh;
     captured := initial_hooks; interval := false; outstanding := [];
     next_request := 0%nat |}.

Definition mounted (st : State) : bool :=
  match phase st with Live => true | _ => false end.

Definition with_hooks (f : Hooks -> Hooks) (st : State) : State :=
  {| hooks := f (hooks st); imgRef := imgRef st; canvasRef := canvasRef st;
     phase := phase st; captured := captured st; interval := interval st;
     outstanding := outstanding st; next_request := next_request st |}.

Definition set_canvas (c : option Canvas) (st : State) : State :=
  {| hooks := hooks st; imgRef := imgRef st; canvasRef := c;
     phase := phase st; captured := captured st; interval := interval st;
     outstanding := outstanding st; next_request := next_request st |}.

Definition set_requests (l : list nat) (next : nat) (st : State) : State :=
  {| hooks := hooks st; imgRef := imgRef st; canvasRef := canvasRef st;
     phase := phase st; captured := captured st; interval := interval st;
     outstanding := l; next_request := next |}.

Definition set_phase (p : Phase) (img : bool) (cap : Hooks) (timer : bool) (st : State) : State :=
  {| hooks := hooks st; imgRef := img; canvasRef := canvasRef st;
     phase := p; captured := cap; interval := timer;
     outstanding := outstanding st; next_request := next_request st |}.

Definition set_state (f : Hooks -> Hooks) : Cmd State :=
  modify (fun st => if mounted st then with_hooks f st else st).

Definition setIsProcessing (b : bool) : Cmd State :=
  emit (SetIsProcessing b) ;;
  set_state (fun h => {| detections := detections h; isProcessing := b; error := error h |}).

Definition setDetections (v : JS.value) : Cmd State :=
  emit (SetDetections v) ;;
  set_state (fun h => {| detections := v; isProcessing := isProcessing h; error := error h |}).

Definition setError (e : option string) : Cmd State :=
  emit (SetError e) ;;
  set_state (fun h => {| detections := detections h; isProcessing := isProcessing h; error := e |}).

Definition issue (t : Z) : Cmd State :=
  fun st =>
    let id := next_request st in
    (set_requests (outstanding st ++ [id]) (S id) st, [Fetch id t]).

(** [processFrame], up to its first [await], as the closure of the render
    held in [captured].  A [return] inside the [try] block still runs the
    [finally] clause. *)
Definition processFrame (t : Tick) : Cmd State :=
  fun st =>
    match canvasRef st with
    | None => skip st
    | Some _ =>
        if negb (imgRef st) || isProcessing (captured st)
           || JS.truthy_message (error (captured st))
        then skip st
        else
          (setIsProcessing true ;;
           (if negb (has_ctx t) then setIsProcessing false
            else if negb (naturalWidth t =? 0) && negb (naturalHeight t =? 0) then
              modify (set_canvas (Some {| width := naturalWidth t;
                                          height := naturalHeight t |})) ;;
              emit (ResizeCanvas (naturalWidth t) (naturalHeight t)) ;;
              emit DrawFrame ;;
              issue (at_time t)
            else setIsProcessing false)) st
    end.

(** The [try] block after [await fetch(...)]: the source of the annotated
    image and the value handed to [setDetections], or what is thrown. *)
Definition after_fetch (o : Outcome) : JS.attempt (string * JS.value) :=
  match o with
  | FetchRejects e => inl e
  | Responds false body => inl (reject_response body)
  | Responds true body =>
      JS.bind (read_json body) (fun result =>
      JS.bind (JS.get result "processed_image") (fun processed =>
      JS.bind (JS.get result "detections") (fun dets =>
      inr (("data:image/jpeg;base64," ++ JS.to_string processed)%string, dets))))
  end.

Definition resume (o : Outcome) : Cmd State :=
  match after_fetch o with
  | inr (src, dets) =>
      emit (LoadAnnotated src) ;; setDetections dets ;; setIsProcessing false
  | inl e =>
      emit ConsoleError ;; setError (Some (surfaced e)) ;; setIsProcessing false
  end.

Definition remove (id : nat) (l : list nat) : list nat :=
  filter (fun x => negb (Nat.eqb x id)) l.

Definition is_outstanding (id : nat) (st : State) : bool :=
  existsb (Nat.eqb id) (outstanding st).

Definition step (e : Event) : Cmd State :=
  fun st =>
    match e with
    | Mount =>
        match phase st with
        | Fresh => (set_phase Live true (hooks st) true st, [StartInterval])
        | _ => skip st
        end
    | IntervalTick t => if interval st then processFrame t st else skip st
    | Response id o =>
        if is_outstanding id st then
          (modify (fun st1 => set_requests (remove id (outstanding st1)) (next_request st1) st1) ;;
           resume o) st
        else skip st
    | ImgLoad => if mounted st then setError None st else skip st
    | ImgError =>
        if mounted st
        then (emit ConsoleError ;; setError (Some "Failed to load video stream")) st
        else skip st
    | Unmount =>
        match phase st with
        | Live => (set_canvas None (set_phase Gone false (captured st) false st), [StopInterval])
        | _ => skip st
        end
    end.

Definition run : list Event -> Cmd State := run_with step.

(** Whether the interval callback issues a request in [st]. *)
Definition samples (t : Tick) (st : State) : bool :=
  existsb is_fetch (snd (step (IntervalTick t) st)).

End Remote.

(** ** Vocabulary of the properties *)

(** Every [Fetch] of the sequence comes after a [SetIsProcessing true] that
    no [SetIsProcessing false] has undone ([in_flight] is the flag before the
    sequence). *)
Fixpoint guarded (in_flight : bool) (l : list Effect) : bool :=
  match l with
  | [] => true
  | SetIsProcessing b :: rest => guarded b rest
  | Fetch _ _ :: rest => in_flight && guarded in_flight rest
  | _ :: rest => guarded in_flight rest
  end.

(** The entries the overlay lists ([detections.map(...)]); it is rendered
    from [detections] alone, beside the error banner.  This is the overlay
    for an array without [null] entries; for other values the render reads
    [detections.length] or [det.class] of something that has none and throws,
    which is not described here. *)
Definition overlay (h : Hooks) : list JS.value :=
  match detections h with
  | JS.Arr items => items
  | _ => []
  end.

(** The message the component shows after a non-2xx response. *)
Definition non_2xx_message (body : Body) : string :=
  surfaced (reject_response body).

(** ** Scenarios *)

(** A display refresh at time [n] with the video ready, at 1280 x 720. *)
Definition frame (n : Z) : Capture.Tick :=
  {| Capture.ready := true; Capture.now := n; Capture.now_issue := n;
     Capture.videoWidth := 1280; Capture.videoHeight := 720 |}.

(** A display refresh at time [n] with the video not ready. *)
Definition stalled (n : Z) : Capture.Tick :=
  {| Capture.ready := false; Capture.now := n; Capture.now_issue := n;
     Capture.videoWidth := 0; Capture.videoHeight := 0 |}.

(** Mounting, the camera granted, and the first five frames: the fifth is
    sent for inference at time 1066. *)
Definition first_request : list Capture.Event :=
  [Capture.Mount true; Capture.DeviceGranted (frame 1000);
   Capture.AnimationFrame (frame 1016); Capture.AnimationFrame (frame 1033);
   Capture.AnimationFrame (frame 1050); Capture.AnimationFrame (frame 1066)].

(** Frames six to nine, while the first request is still pending. *)
Definition while_pending : list Capture.Event :=
  [Capture.AnimationFrame (frame 1200); Capture.AnimationFrame (frame 1300);
   Capture.AnimationFrame (frame 1400); Capture.AnimationFrame (frame 1500)].

(** A timer callback at time [n] with a 640 x 480 image loaded. *)
Definition poll (n : Z) : Remote.Tick :=
  {| Remote.has_ctx := true; Remote.naturalWidth := 640;
     Remote.naturalHeight := 480; Remote.at_time := n |}.

(** Mounting and the first nine timer callbacks of the remote variant. *)
Definition nine_polls : list Remote.Event :=
  [Remote.Mount; Remote.IntervalTick (poll 100); Remote.IntervalTick (poll 200);
   Remote.IntervalTick (poll 300); Remote.IntervalTick (poll 400);
   Remote.IntervalTick (poll 500); Remote.IntervalTick (poll 600);
   Remote.IntervalTick (poll 700); Remote.IntervalTick (poll 800);
   Remote.IntervalTick (poll 900)].

(** A 503 answer whose body is a JSON object with a [detail] string. *)
Definition model_not_loaded : Outcome :=
  Responds false (Json (JS.Obj [("detail", JS.Str "Model not loaded")])).

(** A 200 answer with one detection and no annotated image. *)
Definition one_person : Outcome :=
  Responds true
    (Json (JS.Obj [("detections",
                    JS.Arr [JS.Obj [("class", JS.Str "person");
                                    ("confidence", JS.Num (JS.Number true "0.87"))]])])).

(** A 502 answer whose body is empty, so that [response.json()] rejects. *)
Definition empty_502 : Outcome :=
  Responds false (JsonRejects (JS.ErrorObject "Unexpected end of JSON input")).

(** Mounting, the camera granted, and the first four frames. *)
Definition four_frames : list Capture.Event :=
  [Capture.Mount true; Capture.DeviceGranted (frame 1000);
   Capture.AnimationFrame (frame 1016); Capture.AnimationFrame (frame 1033);
   Capture.AnimationFrame (frame 1050)].

(** The first request is refused with a 503; the tenth frame issues the
    second request, which is answered with one detection. *)
Definition failure_then_success : list Capture.Event :=
  first_request ++ [Capture.Response 0 model_not_loaded] ++ while_pending
  ++ [Capture.AnimationFrame (frame 1600); Capture.Response 1 one_person].

(** The first request stays unanswered; the tenth frame issues the second. *)
Definition two_requests : list Capture.Event :=
  first_request ++ while_pending ++ [Capture.AnimationFrame (frame 1600)].

(** The camera starts at 640 x 480, the canvas is sized from the metadata,
    and the next frame comes at 1280 x 720. *)
Definition resolution_change : list Capture.Event :=
  [Capture.Mount true;
   Capture.DeviceGranted
     {| Capture.ready := true; Capture.now := 1000; Capture.now_issue := 1000;
        Capture.videoWidth := 640; Capture.videoHeight := 480 |};
   Capture.LoadedMetadata 640 480;
   Capture.AnimationFrame (frame 1016)].

(** A remote-stream component in which [canvasRef] holds a canvas. *)
Definition remote_with_canvas : Remote.State :=
  Remote.set_canvas (Some default_canvas) (fst (Remote.run [Remote.Mount] Remote.initial)).

(** Case analysis on the first conditional of the goal. *)
Ltac break_match :=
  match goal with
  | |- context [if ?b then _ else _] => destruct b eqn:?
  | |- context [match ?x with _ => _ end] => destruct x eqn:?
  end.

(** ** Dashboard page ([dashboard/src/pages/DashboardPage.tsx])

    The page that mounts the video feed.  Its robot-pair selection, the
    start handler and the joint-graph buffers are pure functions of the state
    cells of the page. *)

Module Dashboard.

(** An entry of [serverStatus.robot_status].  The page reads [name] and
    [device_name]; the latter is a string that may be missing. *)
Record Robot := mkRobot {
  name : string;
  device_name : option string
}.

(** [number | null] for the two ids. *)
Record RobotPair := mkPair {
  leader_id : option Z;
  follower_id : option Z;
  leader_serial_id : string
}.

(** [{ leader_id: null, follower_id: null, leader_serial_id: "" }] *)
Definition unselected : RobotPair :=
  {| leader_id := None; follower_id := None; leader_serial_id := "" |}.

(** [robot.device_name || fallback] *)
Definition name_or (r : Robot) (fallback : string) : string :=
  match device_name r with
  | Some s => if String.eqb s "" then fallback else s
  | None => fallback
  end.

(** [robot.device_name === value] *)
Definition named (value : string) (r : Robot) : bool :=
  match device_name r with
  | Some s => String.eqb s value
  | None => false
  end.

(** [connectedRobots.indexOf(connectedRobots.find(robot => robot.device_name
    === value))] when [find] finds a robot: [find] returns the first entry
    that passes the test and [indexOf] the first position holding that very
    object, which is the position [find] stopped at.  [i] is the position of
    the head of [robots]. *)
Fixpoint find_from (i : Z) (value : string) (robots : list Robot) : option Z :=
  match robots with
  | [] => None
  | r :: rest => if named value r then Some i else find_from (i + 1) value rest
  end.

Definition find_index (value : string) (robots : list Robot) : option Z :=
  find_from 0 value robots.

(** [connectedRobots[i]] *)
Definition at_index (robots : list Robot) (i : Z) : option Robot :=
  if i <? 0 then None else nth_error robots (Z.to_nat i).

(** The value of a [SelectItem]: [robot.device_name || "Undefined port"]. *)
Definition item_value (r : Robot) : string := name_or r "Undefined port".

(** The effect that sets the default pair, as a function of
    [connectedRobots] and [robotPairs[0]]: the new [robotPairs] and the
    argument of [setLeaderArmSerialIds], or nothing when no branch fires. *)
Definition default_pairs (robots : list Robot) (p0 : RobotPair)
  : option (list RobotPair * list string) :=
  let n := Z.of_nat (List.length robots) in
  if (n >=? 2)
     && match leader_id p0 with None => true | Some _ => false end
     && match follower_id p0 with None => true | Some _ => false end
  then
    let serial := match robots with r :: _ => name_or r "" | [] => "" end in
    Some ([{| leader_id := Some 0; follower_id := Some 1; leader_serial_id := serial |}],
          [serial])
  else if n =? 1 then
    Some ([{| leader_id := None; follower_id := Some 0; leader_serial_id := "" |}], [])
  else if n =? 0 then
    Some ([unselected], [])
  else None.

(** [onValueChange] of the leader select. *)
Definition select_leader (value : string) (robots : list Robot) (p0 : RobotPair)
  : option (list RobotPair) :=
  match find_index value robots with
  | Some i =>
      Some [{| leader_id := Some i; follower_id := follower_id p0;
               leader_serial_id := value |}]
  | None => None
  end.

(** [onValueChange] of the follower select. *)
Definition select_follower (value : string) (robots : list Robot) (p0 : RobotPair)
  : option (list RobotPair) :=
  match find_index value robots with
  | Some i =>
      Some [{| leader_id := leader_id p0; follower_id := Some i;
               leader_serial_id := leader_serial_id p0 |}]
  | None => None
  end.

(** [value] of the leader select: [robotPairs[0].leader_serial_id || ""]. *)
Definition leader_value (p0 : RobotPair) : string := leader_serial_id p0.

(** [value] of the follower select. *)
Definition follower_value (robots : list Robot) (p0 : RobotPair) : string :=
  match follower_id p0 with
  | Some i =>
      match at_index robots i with
      | Some r => name_or r ""
      | None => ""
      end
  | None => ""
  end.

(** [robotPairs.every(pair => pair.leader_id !== null && pair.follower_id !== null)] *)
Definition isConfigValid (pairs : list RobotPair) : bool :=
  forallb (fun p => match leader_id p with Some _ => true | None => false end
                    && match follower_id p with Some _ => true | None => false end)
    pairs.

(** [disabled] of the start button. *)
Definition start_disabled (running : bool) (pairs : list RobotPair) (robots : list Robot) : bool :=
  running || negb (isConfigValid pairs) || (Z.of_nat (List.length robots) <? 2).

Record Gravity := mkGravity { shoulder : Z; elbow : Z; wrist : Z }.

(** Body of [POST /move/leader/start]. *)
Record StartBody := mkStartBody {
  robot_pairs : list RobotPair;
  invert_controls : bool;
  enable_gravity_compensation : bool;
  gravity_compensation_values : option Gravity
}.

Inductive Started :=
| ToastError (message : string)
| PostStart (body : StartBody).

(** [handleMoveStart], up to its [await]. *)
Definition handleMoveStart (pairs : list RobotPair) (invertControls enableGravityControl : bool)
  (gravityCompensationValues : Gravity) : Started :=
  let invalidPairs :=
    filter (fun p => match leader_id p with None => true | Some _ => false end
                     || match follower_id p with None => true | Some _ => false end)
      pairs in
  if (0 <? List.length invalidPairs)%nat then
    ToastError "Please select both leader and follower robots for all pairs"
  else
    PostStart
      {| robot_pairs := pairs;
         invert_controls := invertControls;
         enable_gravity_compensation := enableGravityControl;
         gravity_compensation_values :=
           if negb enableGravityControl then Some gravityCompensationValues else None |}.

(** The two cells the selection works on.  The render reads
    [robotPairs[0].leader_serial_id]: with an empty [robotPairs] it throws,
    and no handler or effect of that render exists. *)
Record State := mkState {
  connectedRobots : list Robot;
  robotPairs : list RobotPair
}.

Inductive Event :=
| Status (robots : list Robot)     (* a new robot_status; the effect runs *)
| EffectRuns                       (* the effect runs again on the same data *)
| LeaderChosen (value : string)
| FollowerChosen (value : string).

Definition initial : State :=
  {| connectedRobots := []; robotPairs := [unselected] |}.

Definition apply (change : option (list RobotPair)) (st : State) : State :=
  match change with
  | Some pairs => {| connectedRobots := connectedRobots st; robotPairs := pairs |}
  | None => st
  end.

Definition step (e : Event) (st : State) : State :=
  match robotPairs st with
  | [] => st
  | p0 :: _ =>
      match e with
      | Status robots =>
          apply (option_map fst (default_pairs robots p0))
            {| connectedRobots := robots; robotPairs := robotPairs st |}
      | EffectRuns => apply (option_map fst (default_pairs (connectedRobots st) p0)) st
      | LeaderChosen value => apply (select_leader value (connectedRobots st) p0) st
      | FollowerChosen value => apply (select_follower value (connectedRobots st) p0) st
      end
  end.

Definition run (events : list Event) (st : State) : State :=
  fold_left (fun s e => step e s) events st.

(** *** Joint-graph buffers *)

Record Sample := mkSample { time : Z; value : Z; goal : Z }.

Record TorqueSample := mkTorqueSample { torque_time : Z; torque_value : Z }.

(** [{ time: t, value: 0, goal: 0 }] *)
Definition flat (t : Z) : Sample := {| time := t; value := 0; goal := 0 |}.

(** [{ time: t, value: 0 }] *)
Definition flat_torque (t : Z) : TorqueSample := {| torque_time := t; torque_value := 0 |}.

(** [buf[buf.length - 1]] *)
Definition last_sample {A} (buf : list A) : option A :=
  match buf with
  | [] => None
  | s :: rest => Some (last rest s)
  end.

(** The function [updateBuffers] maps over the buffers: [buf.slice(1)] with
    one sample pushed, whose time is one more than the time of the last
    sample.  On an empty buffer [buf[buf.length - 1]] is [undefined] and
    reading [time] throws. *)
Definition shift {A} (time_of : A -> Z) (fresh : Z -> A) (buf : list A) : option (list A) :=
  match last_sample buf with
  | None => None
  | Some l => Some (tl buf ++ [fresh (time_of l + 1)])
  end.

(** [prev.map(...)]: the update throws when it throws on one buffer. *)
Fixpoint shift_all {A} (time_of : A -> Z) (fresh : Z -> A) (buffers : list (list A))
  : option (list (list A)) :=
  match buffers with
  | [] => Some []
  | buf :: rest =>
      match shift time_of fresh buf, shift_all time_of fresh rest with
      | Some b, Some bs => Some (b :: bs)
      | _, _ => None
      end
  end.

Record Buffers := mkBuffers {
  positionBuffers : list (list Sample);
  torqueBuffers : list (list TorqueSample)
}.

Definition updateBuffers (b : Buffers) : option Buffers :=
  match shift_all time flat (positionBuffers b),
        shift_all torque_time flat_torque (torqueBuffers b) with
  | Some p, Some t => Some {| positionBuffers := p; torqueBuffers := t |}
  | _, _ => None
  end.

(** [Array.from({ length: n }, (_, i) => fresh (from + i))] *)
Fixpoint window {A} (fresh : Z -> A) (from : Z) (n : nat) : list A :=
  match n with
  | O => []
  | S k => fresh from :: window fresh (from + 1) k
  end.

(** The initial buffers: six buffers of thirty samples, times 0 to 29. *)
Definition initial_buffers : Buffers :=
  {| positionBuffers := repeat (window flat 0 30) 6;
     torqueBuffers := repeat (window flat_torque 0 30) 6 |}.

(** [ticks] runs of the one-second timer. *)
Fixpoint after_ticks (ticks : nat) (b : Buffers) : option Buffers :=
  match ticks with
  | O => Some b
  | S k =>
      match updateBuffers b with
      | Some next => after_ticks k next
      | None => None
      end
  end.

End Dashboard.

(** ** More vocabulary *)

(** The clock readings an event brings lie in the window from [from] to
    [from + 500]. *)
Definition in_burst (from : Z) (e : Capture.Event) : Prop :=
  match e with
  | Capture.DeviceGranted t | Capture.AnimationFrame t =>
      from <= Capture.now_issue t <= from + 500
  | _ => True
  end.


(** The camera has not been granted. *)
Definition without_camera (st : Capture.State) : bool :=
  match Capture.device (Capture.browser st) with
  | Capture.Granted => false
  | _ => true
  end.

(** ** More scenarios *)

(** Twenty display refreshes within 100 ms: the camera is granted at time
    1000 and a frame is drawn every 5 ms. *)
Definition burst_of_frames : list Capture.Event :=
  Capture.Mount true :: Capture.DeviceGranted (frame 1000)
  :: map (fun n => Capture.AnimationFrame (frame n))
       [1005; 1010; 1015; 1020; 1025; 1030; 1035; 1040; 1045; 1050;
        1055; 1060; 1065; 1070; 1075; 1080; 1085; 1090; 1095].


(** The permission for the camera is refused. *)
Definition camera_denied : list Capture.Event :=
  [Capture.Mount true; Capture.DeviceDenied; Capture.AnimationFrame (frame 1000);
   Capture.LoadedMetadata 640 480].

(** What still arrives after the component is gone: five display refreshes
    and the answer to the pending request. *)
Definition after_teardown : list Capture.Event :=
  [Capture.AnimationFrame (frame 1700); Capture.AnimationFrame (frame 1716);
   Capture.AnimationFrame (frame 1733); Capture.AnimationFrame (frame 1750);
   Capture.AnimationFrame (frame 1766); Capture.Response 0 one_person].

(** Two arms on serial ports and one robot without a device name. *)
Definition three_robots : list Dashboard.Robot :=
  [{| Dashboard.name := "so-100"; Dashboard.device_name := Some "/dev/ttyACM0" |};
   {| Dashboard.name := "so-100"; Dashboard.device_name := Some "/dev/ttyACM1" |};
   {| Dashboard.name := "unknown"; Dashboard.device_name := None |}].

(** ** Commands and effect sequences *)

Lemma seq_modify {S} (f : S -> S) (c : Cmd S) (st : S) :
  (modify f ;; c) st = c (f st).
Proof. unfold seq, modify. destruct (c (f st)); reflexivity. Qed.

Lemma seq_emit {S} (e : Effect) (c : Cmd S) (st : S) :
  (emit e ;; c) st = (fst (c st), e :: snd (c st)).
Proof. unfold seq, emit. destruct (c st); reflexivity. Qed.

Lemma run_cons {S E} (step : E -> Cmd S) (e : E) (rest : list E) (st : S) :
  run_with step (e :: rest) st
  = (fst (run_with step rest (fst (step e st))),
     snd (step e st) ++ snd (run_with step rest (fst (step e st)))).
Proof.
  simpl. unfold seq. destruct (step e st) as [st1 out1]. simpl.
  destruct (run_with step rest st1); reflexivity.
Qed.

Lemma issue_times_app (l1 l2 : list Effect) :
  issue_times (l1 ++ l2) = issue_times l1 ++ issue_times l2.
Proof.
  induction l1 as [|e l1 IH]; simpl; [reflexivity|].
  destruct e; simpl; rewrite IH; reflexivity.
Qed.

Lemma count_app (p : Effect -> bool) (l1 l2 : list Effect) :
  count p (l1 ++ l2) = (count p l1 + count p l2)%nat.
Proof. unfold count. rewrite filter_app, length_app. reflexivity. Qed.

Lemma spaced_snoc (gap t : Z) (ts : list Z) :
  spaced gap ts -> (ts = [] \/ t - last ts 0 > gap) -> spaced gap (ts ++ [t]).
Proof.
  induction ts as [|a ts IH]; intros Hs Hl; simpl; [exact I|].
  destruct ts as [|b ts].
  - simpl. destruct Hl as [Hl|Hl]; [discriminate|]. simpl in Hl. split; [lia|exact I].
  - destruct Hs as [Hab Hs]. split; [exact Hab|].
    apply IH; [exact Hs|]. right. destruct Hl as [Hl|Hl]; [discriminate|]. exact Hl.
Qed.

Lemma rem_zero_mod_zero (a : Z) : (Z.rem a 5 =? 0) = (a mod 5 =? 0).
Proof.
  destruct (Z.eqb_spec (Z.rem a 5) 0) as [Hr|Hr];
    destruct (Z.eqb_spec (a mod 5) 0) as [Hm|Hm]; try reflexivity; exfalso.
  - apply Hm. apply Z.mod_divide; [lia|]. apply Z.rem_divide in Hr; [exact Hr|lia].
  - apply Hr. apply Z.rem_divide; [lia|]. apply Z.mod_divide in Hm; [exact Hm|lia].
Qed.

Lemma removed_not_member (id : nat) (l : list nat) :
  existsb (Nat.eqb id) (filter (fun x => negb (Nat.eqb x id)) l) = false.
Proof.
  induction l as [|x l IH]; simpl; [reflexivity|].
  destruct (Nat.eqb x id) eqn:Hx; simpl; [exact IH|].
  rewrite Nat.eqb_sym, Hx. exact IH.
Qed.

(** ** The capture variant, callback by callback *)

Section CaptureFacts.
Import Capture.

(** One call of [processFrame] either does nothing or issues one request
    stamped with the clock reading it has just stored. *)
Lemma processFrame_cases (t : Tick) (st : State) :
  processFrame t st = (st, [])
  \/ (canvasRef (refs st) = true /\ isProcessing (captured st) = false
      /\ snd (processFrame t st)
         = [SetIsProcessing true; Fetch (next_request (browser st)) (now_issue t)]
      /\ last_of (fst (processFrame t st)) = now_issue t).
Proof.
  unfold processFrame.
  destruct (canvasRef (refs st)) eqn:Hc; simpl; [|left; reflexivity].
  destruct (isProcessing (captured st)) eqn:Hp; simpl; [left; reflexivity|].
  right. repeat split.
  unfold last_of, seq, setIsProcessing, set_state, modify, emit, issue; simpl.
  destruct (mounted st); reflexivity.
Qed.

Lemma drawFrame_unfold (t : Tick) (st : State) :
  drawFrame t st =
  if ready t then
    let r := if gate t (counted st) then processFrame t (counted st)
             else (counted st, []) in
    (fst (requestAnimationFrame (fst r)),
     DrawFrame :: snd r ++ [RequestFrame (next_handle (browser (fst r)))])
  else (st, []).
Proof.
  unfold drawFrame. destruct (ready t); [|reflexivity].
  unfold seq, emit, modify, skip.
  destruct (gate t (counted st)).
  - destruct (processFrame t (counted st)) as [st2 eff]. reflexivity.
  - reflexivity.
Qed.

Lemma drawFrame_issue (t : Tick) (st : State) :
  now t <= now_issue t ->
  (issue_times (snd (drawFrame t st)) = []
   /\ last_of (fst (drawFrame t st)) = last_of st)
  \/ (issue_times (snd (drawFrame t st)) = [now_issue t]
      /\ last_of (fst (drawFrame t st)) = now_issue t
      /\ now_issue t - last_of st > 500).
Proof.
  intros Hclock. rewrite drawFrame_unfold.
  destruct (ready t); [|left; split; reflexivity].
  destruct (gate t (counted st)) eqn:Hgate; cbv zeta.
  2:{ left. split; reflexivity. }
  destruct (processFrame_cases t (counted st)) as [Hskip | (_ & _ & Heff & Hl)].
  - rewrite Hskip. left. split; reflexivity.
  - right. destruct (processFrame t (counted st)) as [st2 eff]. simpl in *.
    subst eff. repeat split.
    + exact Hl.
    + unfold gate in Hgate. apply andb_true_iff in Hgate. destruct Hgate as [_ Hgap].
      apply Z.gtb_lt in Hgap.
      change (lastDetectionRef (refs (counted st))) with (last_of st) in Hgap.
      lia.
Qed.

(** Settling a request, whatever the outcome, issues nothing and leaves the
    stored timestamp as it is. *)
Lemma resume_issue (o : Outcome) (st : State) :
  issue_times (snd (resume o st)) = [] /\ last_of (fst (resume o st)) = last_of st.
Proof.
  destruct st as [h r b p c k].
  unfold resume. destruct (after_fetch o); destruct p; split; reflexivity.
Qed.

Lemma step_issue (e : Event) (st : State) :
  clock_ok e ->
  (issue_times (snd (step e st)) = []
   /\ last_of (fst (step e st)) = last_of st)
  \/ (exists t, issue_times (snd (step e st)) = [t]
      /\ last_of (fst (step e st)) = t
      /\ t - last_of st > 500).
Proof.
  intros Hclock. destruct e as [ctx|t| |w h|t|id o| | | ]; simpl.
  - destruct (phase st); [destruct ctx|..]; left; split; reflexivity.
  - destruct (device (browser st)); try (left; split; reflexivity).
    rewrite !seq_modify.
    match goal with |- context [drawFrame t ?s] =>
      destruct (drawFrame_issue t s Hclock) as [[H1 H2]|(H1 & H2 & H3)];
      destruct (drawFrame t s) as [s' eff] eqn:Hd end; simpl in *.
    + left. split; assumption.
    + right. exists (now_issue t). repeat split; assumption.
  - destruct (device (browser st)); try (left; split; reflexivity).
    unfold seq, setError, set_state, modify, emit; simpl.
    destruct (mounted _); left; split; reflexivity.
  - destruct (listening (browser st)); [|left; split; reflexivity].
    unfold updateCanvasSize.
    destruct (negb (w =? 0) && negb (h =? 0)); left; split; reflexivity.
  - destruct (pending_frame (browser st)); [|left; split; reflexivity].
    rewrite !seq_modify.
    match goal with |- context [drawFrame t ?s] =>
      destruct (drawFrame_issue t s Hclock) as [[H1 H2]|(H1 & H2 & H3)];
      destruct (drawFrame t s) as [s' eff] eqn:Hd end; simpl in *.
    + left. split; assumption.
    + right. exists (now_issue t). repeat split; assumption.
  - destruct (is_outstanding id st); [|left; split; reflexivity].
    rewrite !seq_modify.
    match goal with |- context [resume o ?s] =>
      destruct (resume_issue o s) as [H1 H2];
      destruct (resume o s) as [s' eff] eqn:Hd end; simpl in *.
    left. split; assumption.
  - destruct (mounted st) eqn:Hm; [|left; split; reflexivity].
    unfold seq, setError, set_state, modify, emit; simpl. rewrite Hm.
    left; split; reflexivity.
  - destruct (mounted st) eqn:Hm; [|left; split; reflexivity].
    unfold seq, setError, set_state, modify, emit; simpl. rewrite Hm.
    left; split; reflexivity.
  - destruct (phase st); try (left; split; reflexivity).
    unfold seq, modify, effect_cleanup, stop_tracks, skip.
    destruct (has_cleanup st); [destruct (streamRef (refs st))|]; left; split; reflexivity.
Qed.

Lemma run_spaced (events : list Event) :
  forall (st : State) (ts : list Z),
    Forall clock_ok events ->
    spaced 500 ts ->
    (ts = [] \/ last ts 0 = last_of st) ->
    spaced 500 (ts ++ issue_times (snd (run events st))).
Proof.
  induction events as [|e rest IH]; intros st ts Hok Hs Hl.
  - simpl. rewrite app_nil_r. exact Hs.
  - inversion Hok as [|? ? He Hrest]; subst.
    unfold run. rewrite run_cons. cbn [snd]. rewrite issue_times_app, app_assoc.
    destruct (step_issue e st He) as [[H1 H2]|(t & H1 & H2 & H3)].
    + rewrite H1, app_nil_r. apply IH; try assumption.
      destruct Hl as [Hl|Hl]; [left; exact Hl|right]. rewrite H2. exact Hl.
    + rewrite H1. apply IH; [assumption| |].
      * apply spaced_snoc; [exact Hs|].
        destruct Hl as [Hl|Hl]; [left; exact Hl|right]. rewrite Hl. exact H3.
      * right. rewrite last_last. symmetry. exact H2.
Qed.

Lemma keeps_refl (st : State) : keeps st st.
Proof. repeat split; reflexivity. Qed.

Lemma keeps_trans (a b c : State) : keeps a b -> keeps b c -> keeps a c.
Proof.
  unfold keeps, mounted. intros (P1 & C1 & R1 & H1) (P2 & C2 & R2 & H2).
  repeat split; try congruence.
  intros Hm. rewrite H2, H1; [reflexivity|exact Hm|rewrite P1; exact Hm].
Qed.

Lemma resume_keeps (o : Outcome) (st : State) : keeps st (fst (resume o st)).
Proof.
  destruct st as [h r b p c k]. unfold resume, keeps.
  destruct (after_fetch o); destruct p; repeat split; intros; try discriminate; reflexivity.
Qed.

Lemma processFrame_keeps (t : Tick) (st : State) : keeps st (fst (processFrame t st)).
Proof.
  destruct st as [h [fc ld af sr cr] b p [cd cp ce] k]. unfold processFrame, keeps.
  destruct cr, cp, p; repeat split; intros; try discriminate; reflexivity.
Qed.

Lemma drawFrame_keeps (t : Tick) (st : State) : keeps st (fst (drawFrame t st)).
Proof.
  rewrite drawFrame_unfold. destruct (ready t); [|apply keeps_refl]. cbv zeta.
  destruct (gate t (counted st)).
  - apply keeps_trans with (b := fst (processFrame t (counted st))).
    + apply keeps_trans with (b := counted st); [|apply processFrame_keeps].
      repeat split; reflexivity.
    + repeat split; reflexivity.
  - repeat split; reflexivity.
Qed.

Lemma step_keeps (e : Event) (st : State) :
  match e with
  | Mount _ | Unmount => True
  | _ => keeps st (fst (step e st))
  end.
Proof.
  destruct e as [ctx|t| |w h|t|id o| | | ]; simpl; try exact I.
  - destruct (device (browser st)); try apply keeps_refl.
    rewrite !seq_modify.
    eapply keeps_trans; [|apply drawFrame_keeps]. repeat split; reflexivity.
  - destruct st as [h r [d tl li cv pf nh out nr] p c k].
    destruct d, p; repeat split; intros; try discriminate; reflexivity.
  - destruct (listening (browser st)); [|apply keeps_refl].
    unfold updateCanvasSize. destruct (negb (w =? 0) && negb (h =? 0));
      repeat split; reflexivity.
  - destruct (pending_frame (browser st)); [|apply keeps_refl].
    rewrite !seq_modify.
    eapply keeps_trans; [|apply drawFrame_keeps]. repeat split; reflexivity.
  - destruct (is_outstanding id st); [|apply keeps_refl].
    rewrite !seq_modify.
    eapply keeps_trans; [|apply resume_keeps]. repeat split; reflexivity.
  - destruct st as [h r b p c k].
    destruct p; repeat split; intros; try discriminate; reflexivity.
  - destruct st as [h r b p c k].
    destruct p; repeat split; intros; try discriminate; reflexivity.
Qed.

Lemma keeps_inv (st st' : State) : inv st -> keeps st st' -> inv st'.
Proof.
  unfold inv, keeps, mounted. intros (Hc & Hr & Hh) (P & C & R & H).
  rewrite P, C, R. repeat split; try assumption.
  intros Hf. rewrite H; [apply Hh; exact Hf|rewrite Hf; reflexivity].
Qed.

Lemma step_inv (e : Event) (st : State) : inv st -> inv (fst (step e st)).
Proof.
  intros Hinv. pose proof (step_keeps e st) as Hk.
  destruct e; try (eapply keeps_inv; eassumption).
  - destruct st as [h r b p c k]. destruct Hinv as (Hc & Hr & Hh).
    destruct p; simpl; [|repeat split; assumption..].
    unfold mounted in *; simpl in *.
    rewrite (Hh eq_refl). destruct has_ctx; repeat split; intros; discriminate.
  - destruct st as [h [fc ld af sr cr] b p c k]. destruct Hinv as (Hc & Hr & Hh).
    destruct p; simpl; [repeat split; assumption| |repeat split; assumption].
    unfold seq, modify, effect_cleanup, stop_tracks, skip; simpl.
    destruct k; [destruct sr|]; simpl; repeat split; try assumption; intros; discriminate.
Qed.

Lemma run_inv (events : list Event) (st : State) :
  inv st -> inv (fst (run events st)).
Proof.
  revert st. induction events as [|e rest IH]; intros st Hinv; [exact Hinv|].
  unfold run. rewrite run_cons. cbn [fst]. apply IH, step_inv, Hinv.
Qed.

Lemma initial_inv : inv initial.
Proof. repeat split. Qed.

End CaptureFacts.

(** ** The remote-stream variant, callback by callback *)

Section RemoteFacts.
Import Remote.

Lemma remote_resume_frame (o : Outcome) (st : State) :
  canvasRef (fst (resume o st)) = canvasRef st
  /\ outstanding (fst (resume o st)) = outstanding st
  /\ existsb is_fetch (snd (resume o st)) = false.
Proof.
  destruct st as [h i c p cap tm out nr]. unfold resume.
  destruct (after_fetch o) as [e|[src dets]]; destruct p; repeat split; reflexivity.
Qed.

(** No element carries [canvasRef], so the ref stays empty and the timer
    callback returns at its first line. *)
Lemma remote_step_without_canvas (e : Event) (st : State) :
  canvasRef st = None ->
  canvasRef (fst (step e st)) = None
  /\ existsb is_fetch (snd (step e st)) = false.
Proof.
  intros Hc. destruct e as [|t|id o| | |]; simpl.
  - destruct (phase st); split; simpl; auto.
  - destruct (interval st); [|split; simpl; auto].
    unfold processFrame. rewrite Hc. split; simpl; auto.
  - destruct (is_outstanding id st); [|split; simpl; auto].
    rewrite seq_modify.
    match goal with |- context [resume o ?s] =>
      destruct (remote_resume_frame o s) as (H1 & _ & H3) end.
    rewrite H1, H3. split; simpl; auto.
  - destruct st as [h i c p cap tm out nr]. simpl in Hc. subst c.
    destruct p; split; reflexivity.
  - destruct st as [h i c p cap tm out nr]. simpl in Hc. subst c.
    destruct p; split; reflexivity.
  - destruct (phase st); split; simpl; auto.
Qed.

Lemma remote_run_without_canvas (events : list Event) (st : State) :
  canvasRef st = None ->
  canvasRef (fst (run events st)) = None
  /\ existsb is_fetch (snd (run events st)) = false.
Proof.
  revert st. induction events as [|e rest IH]; intros st Hc; [split; simpl; auto|].
  unfold run. rewrite run_cons. cbn [fst snd].
  destruct (remote_step_without_canvas e st Hc) as [H1 H2].
  destruct (IH _ H1) as [H3 H4]. split; [exact H3|].
  rewrite existsb_app, H2. exact H4.
Qed.

End RemoteFacts.

(** ** Claims *)

(** The guard on [isProcessing] in [processFrame] would not hold a second
    request back: the [processFrame] that [drawFrame] calls is the closure of
    the first render, in which [isProcessing] is [false] for ever.  This is
    the display loop as it would run if the first [drawFrame()] found data,
    which a browser does not deliver: the fifth frame issues request 0 at time
    1066, the answer does not come, and the tenth frame at time 1600 issues
    request 1. *)
Lemma capture_second_request_while_first_outstanding :
  let st := fst (Capture.run (first_request ++ while_pending) Capture.initial) in
  let r := Capture.step (Capture.AnimationFrame (frame 1600)) st in
  isProcessing (Capture.hooks st) = true
  /\ Capture.outstanding (Capture.browser st) = [0%nat]
  /\ snd r = [DrawFrame; SetIsProcessing true; Fetch 1 1600; RequestFrame 10]
  /\ Capture.outstanding (Capture.browser (fst r)) = [0%nat; 1%nat].
Proof. vm_compute. repeat split. Qed.

(** The remote-stream variant never issues a request at all. *)
Lemma remote_issues_no_request (events : list Remote.Event) :
  existsb is_fetch (snd (Remote.run events Remote.initial)) = false.
Proof. apply remote_run_without_canvas. reflexivity. Qed.





Lemma capture_resume_browser (o : Outcome) (st : Capture.State) :
  Capture.browser (fst (Capture.resume o st)) = Capture.browser st.
Proof.
  destruct st as [h r b p c k]. unfold Capture.resume.
  destruct (Capture.after_fetch o); destruct p; reflexivity.
Qed.

Lemma capture_resume_resets (o : Outcome) (st : Capture.State) :
  count is_reset (snd (Capture.resume o st)) = 1%nat
  /\ isProcessing (Capture.hooks (fst (Capture.resume o st)))
     = isProcessing (Capture.hooks st) && negb (Capture.mounted st).
Proof.
  destruct st as [h r b p c k]. unfold Capture.resume.
  destruct (Capture.after_fetch o); destruct p; simpl; split;
    try reflexivity; rewrite ?andb_true_r, ?andb_false_r; reflexivity.
Qed.

Lemma remote_resume_resets (o : Outcome) (st : Remote.State) :
  count is_reset (snd (Remote.resume o st)) = 1%nat
  /\ isProcessing (Remote.hooks (fst (Remote.resume o st)))
     = isProcessing (Remote.hooks st) && negb (Remote.mounted st).
Proof.
  destruct st as [h i c p cap tm out nr]. unfold Remote.resume.
  destruct (Remote.after_fetch o) as [e|[src dets]]; destruct p; simpl; split;
    try reflexivity; rewrite ?andb_true_r, ?andb_false_r; reflexivity.
Qed.

(** C2.  In both variants [processFrame] calls [setIsProcessing(true)]
    before [fetch] in the same synchronous run (and the flag is then [true]
    while the component is mounted); when the request settles, on every
    outcome (answer accepted, non-2xx status, rejected [fetch], body that
    does not decode), the continuation calls [setIsProcessing(false)] exactly
    once, the flag is then [false], and the request is no longer outstanding,
    so that nothing runs for it a second time. *)
Theorem in_flight_set_before_fetch_and_reset_once
  (cs : Capture.State) (ct : Capture.Tick) (rs : Remote.State) (rt : Remote.Tick)
  (id : nat) (o : Outcome) :
  (guarded false (snd (Capture.processFrame ct cs)) = true
   /\ implb (existsb is_fetch (snd (Capture.processFrame ct cs)) && Capture.mounted cs)
        (isProcessing (Capture.hooks (fst (Capture.processFrame ct cs)))) = true
   /\ count is_reset (snd (Capture.step (Capture.Response id o) cs))
      = (if Capture.is_outstanding id cs then 1 else 0)%nat
   /\ implb (Capture.is_outstanding id cs && Capture.mounted cs)
        (negb (isProcessing
                 (Capture.hooks (fst (Capture.step (Capture.Response id o) cs))))) = true
   /\ Capture.is_outstanding id (fst (Capture.step (Capture.Response id o) cs)) = false)
  /\
  (guarded false (snd (Remote.processFrame rt rs)) = true
   /\ implb (existsb is_fetch (snd (Remote.processFrame rt rs)) && Remote.mounted rs)
        (isProcessing (Remote.hooks (fst (Remote.processFrame rt rs)))) = true
   /\ count is_reset (snd (Remote.step (Remote.Response id o) rs))
      = (if Remote.is_outstanding id rs then 1 else 0)%nat
   /\ implb (Remote.is_outstanding id rs && Remote.mounted rs)
        (negb (isProcessing
                 (Remote.hooks (fst (Remote.step (Remote.Response id o) rs))))) = true
   /\ Remote.is_outstanding id (fst (Remote.step (Remote.Response id o) rs)) = false).
Proof.
  split.
  - split; [|split; [|split; [|split]]].
    + destruct (processFrame_cases ct cs) as [H|(_ & _ & H & _)]; rewrite H; reflexivity.
    + destruct cs as [h [fc ld af sr cr] b p [cd cp ce] k]. unfold Capture.processFrame.
      destruct cr, cp, p; reflexivity.
    + simpl. destruct (Capture.is_outstanding id cs); [|reflexivity].
      rewrite seq_modify. apply capture_resume_resets.
    + simpl. destruct (Capture.is_outstanding id cs) eqn:Ho; [|reflexivity].
      rewrite seq_modify.
      match goal with |- context [Capture.resume o ?s] =>
        destruct (capture_resume_resets o s) as [_ H] end.
      rewrite H. destruct cs as [h r b p c k]. destruct p; simpl;
        rewrite ?andb_false_r; reflexivity.
    + simpl. destruct (Capture.is_outstanding id cs) eqn:Ho; [|exact Ho].
      rewrite seq_modify. unfold Capture.is_outstanding.
      rewrite capture_resume_browser. simpl. apply removed_not_member.
  - split; [|split; [|split; [|split]]].
    + destruct rs as [h i c p [cd cp ce] tm out nr]. unfold Remote.processFrame. simpl.
      repeat (break_match; simpl; try reflexivity).
    + destruct rs as [h i c p [cd cp ce] tm out nr]. unfold Remote.processFrame. simpl.
      destruct p; repeat (break_match; simpl; try reflexivity).
    + simpl. destruct (Remote.is_outstanding id rs); [|reflexivity].
      rewrite seq_modify. apply remote_resume_resets.
    + simpl. destruct (Remote.is_outstanding id rs) eqn:Ho; [|reflexivity].
      rewrite seq_modify.
      match goal with |- context [Remote.resume o ?s] =>
        destruct (remote_resume_resets o s) as [_ H] end.
      rewrite H. destruct rs as [h i c p cap tm out nr]. destruct p; simpl;
        rewrite ?andb_false_r; reflexivity.
    + simpl. destruct (Remote.is_outstanding id rs) eqn:Ho; [|exact Ho].
      rewrite seq_modify. unfold Remote.is_outstanding.
      match goal with |- context [Remote.resume o ?s] =>
        destruct (remote_resume_frame o s) as (_ & H & _) end.
      rewrite H. simpl. apply removed_not_member.
Qed.

Lemma capture_samples_gate (t : Capture.Tick) (st : Capture.State) :
  Capture.ready t = true ->
  Capture.canvasRef (Capture.refs st) = true ->
  isProcessing (Capture.captured st) = false ->
  Capture.samples t st = Capture.gate t (Capture.counted st).
Proof.
  intros Hr Hc Hp. unfold Capture.samples. rewrite drawFrame_unfold, Hr. cbv zeta.
  destruct (Capture.gate t (Capture.counted st)); [|reflexivity].
  destruct (processFrame_cases t (Capture.counted st)) as [H|(_ & _ & H & _)].
  - exfalso. unfold Capture.processFrame in H.
    change (Capture.canvasRef (Capture.refs (Capture.counted st)))
      with (Capture.canvasRef (Capture.refs st)) in H.
    change (Capture.captured (Capture.counted st)) with (Capture.captured st) in H.
    rewrite Hc, Hp in H. simpl in H.
    apply (f_equal snd) in H. revert H.
    unfold seq, Capture.setIsProcessing, Capture.set_state, modify, emit, Capture.issue.
    simpl. discriminate.
  - cbn [snd]. rewrite H. reflexivity.
Qed.

(** C3, as stated, fails for the remote-stream variant.  Nine timer
    callbacks have gone by without a request; at the tenth, at time 1000, the
    stride and gap conditions hold (10 mod 5 = 0 and 1000 - 0 > 500) and no
    request is issued.  Nor is the missing canvas the only reason: with a
    canvas in [canvasRef] the very first callback, at time 100, issues a
    request although neither condition holds. *)
Lemma remote_tenth_poll_not_sampled :
  (SampleDecision 5 500 10 1000 0 = true
   /\ Remote.samples (poll 1000) (fst (Remote.run nine_polls Remote.initial)) = false)
  /\ (SampleDecision 5 500 1 100 0 = false
      /\ Remote.samples (poll 100) remote_with_canvas = true).
Proof. vm_compute. repeat split. Qed.

(** C3, amended.  In the capture variant, while the component is mounted,
    a frame drawn at a tick is sent for inference exactly when the frame
    counter, this frame counted, is a multiple of 5 and more than 500 ms have
    passed since the stored time of the last request. *)
Theorem capture_sample_decision (events : list Capture.Event) (t : Capture.Tick) :
  let st := fst (Capture.run events Capture.initial) in
  Capture.ready t = true ->
  Capture.mounted st = true ->
  Capture.samples t st
  = SampleDecision 5 500 (Capture.frameCountRef (Capture.refs st) + 1)
      (Capture.now t) (Capture.lastDetectionRef (Capture.refs st)).
Proof.
  intros st Hr Hm.
  destruct (run_inv events Capture.initial initial_inv) as (Hc & Hcr & _).
  fold st in Hc, Hcr. rewrite Hm in Hcr.
  rewrite (capture_samples_gate t st Hr Hcr Hc).
  unfold Capture.gate, SampleDecision. simpl.
  rewrite rem_zero_mod_zero. reflexivity.
Qed.

Lemma capture_sample_decision_witness :
  let st := fst (Capture.run four_frames Capture.initial) in
  (Capture.ready (frame 1066) = true /\ Capture.mounted st = true)
  /\ Capture.samples (frame 1066) st = SampleDecision 5 500 (4 + 1) 1066 0
  /\ Capture.samples (frame 1066) st = true.
Proof.
  split; [split; reflexivity|]. split; [|reflexivity].
  apply (capture_sample_decision four_frames (frame 1066)); reflexivity.
Defined.

(** C4 (evaluated on the code).  The capture variant is unmounted while
    request 0 is in flight.  The effect's clean-up stops the tracks, and the
    later answer changes no state cell; but the scheduled [drawFrame]
    callback is still pending and the next display refresh draws and
    re-schedules.  The function that calls [cancelAnimationFrame] is the one
    [setupStream] returns, which nobody calls; had it run, nothing would be
    pending.  When the component is unmounted before the camera is granted,
    the tracks of the stream that arrives later stay live. *)
Theorem capture_teardown_keeps_frame_callback :
  let st := fst (Capture.run (first_request ++ [Capture.Unmount]) Capture.initial) in
  Capture.outstanding (Capture.browser st) = [0%nat]
  /\ Capture.tracks_live (Capture.browser st) = false
  /\ Capture.hooks (fst (Capture.step (Capture.Response 0 one_person) st))
     = Capture.hooks st
  /\ Capture.pending_frame (Capture.browser st) = Some 5
  /\ snd (Capture.step (Capture.AnimationFrame (frame 1083)) st)
     = [DrawFrame; RequestFrame 6]
  /\ Capture.pending_frame (Capture.browser (fst (Capture.stream_cleanup st))) = None
  /\ Capture.tracks_live
       (Capture.browser
          (fst (Capture.run [Capture.Mount true; Capture.Unmount;
                             Capture.DeviceGranted (frame 1000)] Capture.initial)))
     = true.
Proof. vm_compute. repeat split. Qed.

(** Unmounting the remote-stream variant disarms its timer. *)
Lemma remote_unmount_stops_interval (st : Remote.State) :
  Remote.mounted st = true ->
  Remote.interval (fst (Remote.step Remote.Unmount st)) = false
  /\ snd (Remote.step Remote.Unmount st) = [StopInterval].
Proof.
  destruct st as [h i c p cap tm out nr]. unfold Remote.mounted. simpl.
  destruct p; intros H; try discriminate. split; reflexivity.
Qed.

Lemma capture_failure_keeps_detections (e : JS.thrown) (st : Capture.State) :
  detections
    (Capture.hooks
       (fst ((emit ConsoleError ;; Capture.setError (Some (surfaced e)) ;;
              Capture.setIsProcessing false) st)))
  = detections (Capture.hooks st).
Proof. destruct st as [h r b p c k]. destruct p; reflexivity. Qed.

Lemma remote_failure_keeps_detections (e : JS.thrown) (st : Remote.State) :
  detections
    (Remote.hooks
       (fst ((emit ConsoleError ;; Remote.setError (Some (surfaced e)) ;;
              Remote.setIsProcessing false) st)))
  = detections (Remote.hooks st).
Proof. destruct st as [h i c p cap tm out nr]. destruct p; reflexivity. Qed.

(** C5.  In both variants, when a request fails (the [fetch] is rejected,
    or the answer has a non-2xx status, whatever its body), the [detections]
    cell is what it was before, and so is the list the overlay shows. *)
Theorem failed_request_keeps_detections
  (cs : Capture.State) (rs : Remote.State) (id : nat) (e : JS.thrown) (body : Body) :
  (detections (Capture.hooks (fst (Capture.step (Capture.Response id (FetchRejects e)) cs)))
   = detections (Capture.hooks cs)
   /\ detections
        (Capture.hooks (fst (Capture.step (Capture.Response id (Responds false body)) cs)))
      = detections (Capture.hooks cs)
   /\ overlay (Capture.hooks (fst (Capture.step (Capture.Response id (FetchRejects e)) cs)))
      = overlay (Capture.hooks cs)
   /\ overlay
        (Capture.hooks (fst (Capture.step (Capture.Response id (Responds false body)) cs)))
      = overlay (Capture.hooks cs))
  /\
  (detections (Remote.hooks (fst (Remote.step (Remote.Response id (FetchRejects e)) rs)))
   = detections (Remote.hooks rs)
   /\ detections
        (Remote.hooks (fst (Remote.step (Remote.Response id (Responds false body)) rs)))
      = detections (Remote.hooks rs)
   /\ overlay (Remote.hooks (fst (Remote.step (Remote.Response id (FetchRejects e)) rs)))
      = overlay (Remote.hooks rs)
   /\ overlay
        (Remote.hooks (fst (Remote.step (Remote.Response id (Responds false body)) rs)))
      = overlay (Remote.hooks rs)).
Proof.
  assert (Hc : forall o x, Capture.after_fetch o = inl x ->
             detections (Capture.hooks (fst (Capture.step (Capture.Response id o) cs)))
             = detections (Capture.hooks cs)).
  { intros o x Ho. simpl. destruct (Capture.is_outstanding id cs); [|reflexivity].
    rewrite seq_modify. unfold Capture.resume. rewrite Ho.
    rewrite capture_failure_keeps_detections. reflexivity. }
  assert (Hr : forall o x, Remote.after_fetch o = inl x ->
             detections (Remote.hooks (fst (Remote.step (Remote.Response id o) rs)))
             = detections (Remote.hooks rs)).
  { intros o x Ho. simpl. destruct (Remote.is_outstanding id rs); [|reflexivity].
    rewrite seq_modify. unfold Remote.resume. rewrite Ho.
    rewrite remote_failure_keeps_detections. reflexivity. }
  unfold overlay.
  rewrite !(Hc (FetchRejects e) e eq_refl).
  rewrite !(Hc (Responds false body) (reject_response body) eq_refl).
  rewrite !(Hr (FetchRejects e) e eq_refl).
  rewrite !(Hr (Responds false body) (reject_response body) eq_refl).
  repeat split.
Qed.

(** C6, as stated, fails when the body of a non-2xx answer cannot be
    parsed: the banner shows the message of the parser's exception, not
    "Detection failed". *)
Lemma unparsable_body_shows_parser_message :
  let st := fst (Capture.run (first_request ++ [Capture.Response 0 empty_502])
                   Capture.initial) in
  error (Capture.hooks st) = Some "Unexpected end of JSON input"
  /\ error (Capture.hooks st) <> Some "Detection failed".
Proof. vm_compute. split; [reflexivity|discriminate]. Qed.

(** C6, amended.  After a non-2xx answer whose body parses to a JSON
    object, in both variants, the message put in the error cell is the
    [detail] field verbatim when [detail] is a non-empty string, and
    "Detection failed" when [detail] is absent or falsy (the empty string
    included). *)
Theorem non_2xx_error_message
  (cs : Capture.State) (rs : Remote.State) (body : Body) :
  Capture.mounted cs = true ->
  Remote.mounted rs = true ->
  error (Capture.hooks (fst (Capture.resume (Responds false body) cs)))
  = Some (non_2xx_message body)
  /\ error (Remote.hooks (fst (Remote.resume (Responds false body) rs)))
     = Some (non_2xx_message body)
  /\ (forall fields s,
        body = Json (JS.Obj fields) -> JS.lookup "detail" fields = JS.Str s ->
        s <> "" -> non_2xx_message body = s)
  /\ (forall fields,
        body = Json (JS.Obj fields) -> JS.truthy (JS.lookup "detail" fields) = false ->
        non_2xx_message body = "Detection failed")
  /\ (forall fields,
        body = Json (JS.Obj fields) -> JS.lookup "detail" fields = JS.Undefined ->
        non_2xx_message body = "Detection failed").
Proof.
  intros Hc Hr. split; [|split; [|split; [|split]]].
  - destruct cs as [h r b p c k]. unfold Capture.mounted in Hc. simpl in Hc.
    destruct p; try discriminate. reflexivity.
  - destruct rs as [h i c p cap tm out nr]. unfold Remote.mounted in Hr. simpl in Hr.
    destruct p; try discriminate. reflexivity.
  - intros fields s -> Hd Hs. unfold non_2xx_message, reject_response. simpl.
    rewrite Hd. unfold JS.or_else. simpl.
    destruct (String.eqb_spec s ""); [contradiction|reflexivity].
  - intros fields -> Hd. unfold non_2xx_message, reject_response. simpl.
    unfold JS.or_else. rewrite Hd. reflexivity.
  - intros fields -> Hd. unfold non_2xx_message, reject_response. simpl.
    rewrite Hd. reflexivity.
Qed.

Lemma non_2xx_error_message_witness :
  let cs := fst (Capture.run first_request Capture.initial) in
  let rs := fst (Remote.run [Remote.Mount] Remote.initial) in
  (Capture.mounted cs = true /\ Remote.mounted rs = true)
  /\ error (Capture.hooks (fst (Capture.resume model_not_loaded cs)))
     = Some "Model not loaded".
Proof.
  split; [split; reflexivity|].
  destruct (non_2xx_error_message
              (fst (Capture.run first_request Capture.initial))
              (fst (Remote.run [Remote.Mount] Remote.initial))
              (Json (JS.Obj [("detail", JS.Str "Model not loaded")]))
              eq_refl eq_refl) as (H & _).
  exact H.
Defined.

(** C7, as stated, fails at a display refresh that finds the video without
    enough data: nothing is drawn and no further callback is scheduled. *)
Lemma stalled_refresh_draws_nothing :
  let st := fst (Capture.run four_frames Capture.initial) in
  let r := Capture.step (Capture.AnimationFrame (stalled 1066)) st in
  Capture.pending_frame (Capture.browser st) = Some 4
  /\ count is_draw (snd r) = 0%nat
  /\ count is_request_frame (snd r) = 0%nat
  /\ Capture.pending_frame (Capture.browser (fst r)) = None.
Proof. vm_compute. repeat split. Qed.

Lemma processFrame_draws_nothing (t : Capture.Tick) (st : Capture.State) :
  detections (Capture.hooks (fst (Capture.processFrame t st)))
  = detections (Capture.hooks st)
  /\ Capture.next_handle (Capture.browser (fst (Capture.processFrame t st)))
     = Capture.next_handle (Capture.browser st)
  /\ count is_draw (snd (Capture.processFrame t st)) = 0%nat
  /\ count is_request_frame (snd (Capture.processFrame t st)) = 0%nat.
Proof.
  destruct st as [hk [fc ld af sr cr] b p [cd cp ce] k].
  unfold Capture.processFrame. destruct cr, cp, p; repeat split.
Qed.

(** C7, amended.  The display loop never waits for inference: at every
    display refresh that finds the video with enough data, whatever
    [isProcessing] is and whichever requests are outstanding, [drawFrame]
    draws one frame, leaves [detections] as it is and schedules itself
    again. *)
Theorem ready_refresh_draws_and_reschedules
  (st : Capture.State) (t : Capture.Tick) (h : Z) :
  Capture.pending_frame (Capture.browser st) = Some h ->
  Capture.ready t = true ->
  let r := Capture.step (Capture.AnimationFrame t) st in
  count is_draw (snd r) = 1%nat
  /\ count is_request_frame (snd r) = 1%nat
  /\ Capture.pending_frame (Capture.browser (fst r))
     = Some (Capture.next_handle (Capture.browser st))
  /\ detections (Capture.hooks (fst r)) = detections (Capture.hooks st).
Proof.
  intros Hp Hr r. subst r. simpl. rewrite Hp, seq_modify, drawFrame_unfold, Hr.
  cbv zeta.
  match goal with |- context [Capture.gate t ?s] =>
    destruct (Capture.gate t s);
    [destruct (processFrame_draws_nothing t s) as (Hd & Hn & Hc1 & Hc2)|] end.
  - cbn [fst snd].
    change (DrawFrame :: ?l ++ ?m) with ([DrawFrame] ++ l ++ m).
    rewrite !count_app, Hc1, Hc2. simpl. rewrite Hn. repeat split. exact Hd.
  - simpl. repeat split.
Qed.

Lemma ready_refresh_draws_and_reschedules_witness :
  let st := fst (Capture.run first_request Capture.initial) in
  let r := Capture.step (Capture.AnimationFrame (frame 1083)) st in
  (Capture.pending_frame (Capture.browser st) = Some 5
   /\ Capture.ready (frame 1083) = true
   /\ isProcessing (Capture.hooks st) = true)
  /\ count is_draw (snd r) = 1%nat
  /\ count is_request_frame (snd r) = 1%nat
  /\ Capture.pending_frame (Capture.browser (fst r)) = Some 6
  /\ detections (Capture.hooks (fst r)) = JS.Arr [].
Proof.
  split; [repeat split|].
  apply (ready_refresh_draws_and_reschedules
           (fst (Capture.run first_request Capture.initial)) (frame 1083) 5);
    reflexivity.
Defined.

(** C8, as stated, fails for the inference channel: the first request is
    refused, the second is answered, and the error of the first is still in
    the error cell beside the new detections.  The continuation of the
    remote-stream variant behaves alike. *)
Lemma inference_error_survives_success :
  let st := fst (Capture.run failure_then_success Capture.initial) in
  error (Capture.hooks st) = Some "Model not loaded"
  /\ overlay (Capture.hooks st)
     = [JS.Obj [("class", JS.Str "person");
                ("confidence", JS.Num (JS.Number true "0.87"))]]
  /\ isProcessing (Capture.hooks st) = false
  /\ error
       (Remote.hooks
          (fst (Remote.resume one_person
                  (fst (Remote.resume model_not_loaded
                          (fst (Remote.run [Remote.Mount] Remote.initial)))))))
     = Some "Model not loaded".
Proof. vm_compute. repeat split. Qed.

(** C8, amended.  In both variants the one error cell is cleared by the
    load event of the image element, whichever failure filled it, and an
    accepted inference answer leaves the error cell as it is. *)
Theorem error_cleared_by_image_load_only
  (cs : Capture.State) (rs : Remote.State) (o : Outcome) :
  Capture.mounted cs = true ->
  Remote.mounted rs = true ->
  error (Capture.hooks (fst (Capture.step Capture.ImgLoad cs))) = None
  /\ error (Remote.hooks (fst (Remote.step Remote.ImgLoad rs))) = None
  /\ (forall dets, Capture.after_fetch o = inr dets ->
        error (Capture.hooks (fst (Capture.resume o cs))) = error (Capture.hooks cs))
  /\ (forall shown, Remote.after_fetch o = inr shown ->
        error (Remote.hooks (fst (Remote.resume o rs))) = error (Remote.hooks rs)).
Proof.
  intros Hc Hr.
  destruct cs as [h r b p c k]. destruct rs as [h' i c' p' cap tm out nr].
  unfold Capture.mounted in Hc. unfold Remote.mounted in Hr. simpl in Hc, Hr.
  destruct p; try discriminate. destruct p'; try discriminate.
  repeat split.
  - intros dets Ho. unfold Capture.resume. rewrite Ho. reflexivity.
  - intros [src dets] Ho. unfold Remote.resume. rewrite Ho. reflexivity.
Qed.

Lemma error_cleared_by_image_load_only_witness :
  let cs := fst (Capture.run (first_request ++ [Capture.Response 0 model_not_loaded])
                   Capture.initial) in
  let rs := fst (Remote.run [Remote.Mount; Remote.ImgError] Remote.initial) in
  (Capture.mounted cs = true /\ Remote.mounted rs = true)
  /\ error (Capture.hooks cs) = Some "Model not loaded"
  /\ error (Remote.hooks rs) = Some "Failed to load video stream"
  /\ error (Capture.hooks (fst (Capture.step Capture.ImgLoad cs))) = None
  /\ error (Remote.hooks (fst (Remote.step Remote.ImgLoad rs))) = None.
Proof.
  split; [split; reflexivity|]. split; [reflexivity|]. split; [reflexivity|].
  destruct (error_cleared_by_image_load_only
              (fst (Capture.run (first_request ++ [Capture.Response 0 model_not_loaded])
                      Capture.initial))
              (fst (Remote.run [Remote.Mount; Remote.ImgError] Remote.initial))
              one_person eq_refl eq_refl) as (H1 & H2 & _).
  split; [exact H1|exact H2].
Defined.

(** C9, as stated, fails in the capture variant: the canvas was sized
    640 x 480 from the metadata, the next frame is drawn from a video that is
    1280 x 720, and the canvas is still 640 x 480. *)
Lemma canvas_not_resized_on_resolution_change :
  let r := Capture.run resolution_change Capture.initial in
  Capture.videoWidth (frame 1016) = 1280
  /\ Capture.videoHeight (frame 1016) = 720
  /\ snd r = [DrawFrame; RequestFrame 1; ResizeCanvas 640 480; DrawFrame; RequestFrame 2]
  /\ Capture.canvas (Capture.browser (fst r)) = {| width := 640; height := 480 |}.
Proof. vm_compute. repeat split. Qed.

(** C9, amended.  Capture variant: drawing a frame never changes the size
    of the canvas; the canvas takes the dimensions of the video when the
    [loadedmetadata] event fires with both dimensions non-zero.
    Remote-stream variant: every run of [processFrame] that reaches the
    drawing step assigns the current natural dimensions of the image to the
    canvas, whether or not they differ from its size. *)
Theorem canvas_size_updates
  (cs : Capture.State) (t : Capture.Tick) (w h : Z)
  (rs : Remote.State) (rt : Remote.Tick) (c : Canvas) :
  Capture.listening (Capture.browser cs) = true ->
  w <> 0 -> h <> 0 ->
  Remote.canvasRef rs = Some c ->
  Remote.imgRef rs = true ->
  isProcessing (Remote.captured rs) = false ->
  JS.truthy_message (error (Remote.captured rs)) = false ->
  Remote.has_ctx rt = true ->
  Remote.naturalWidth rt <> 0 -> Remote.naturalHeight rt <> 0 ->
  (Capture.canvas (Capture.browser (fst (Capture.drawFrame t cs)))
   = Capture.canvas (Capture.browser cs)
   /\ count is_resize (snd (Capture.drawFrame t cs)) = 0%nat
   /\ Capture.canvas (Capture.browser (fst (Capture.step (Capture.LoadedMetadata w h) cs)))
      = {| width := w; height := h |})
  /\
  (Remote.canvasRef (fst (Remote.processFrame rt rs))
   = Some {| width := Remote.naturalWidth rt; height := Remote.naturalHeight rt |}
   /\ filter is_resize (snd (Remote.processFrame rt rs))
      = [ResizeCanvas (Remote.naturalWidth rt) (Remote.naturalHeight rt)]).
Proof.
  intros Hl Hw Hh Hcv Hi Hp He Hx Hnw Hnh. split; [split; [|split]|].
  - destruct cs as [hk [fc ld af sr cr] b p [cd cp ce] k].
    unfold Capture.drawFrame, Capture.processFrame, seq, emit, modify, skip. simpl.
    destruct (Capture.ready t); [|reflexivity].
    destruct (Capture.gate t _); [|reflexivity].
    destruct cr, cp, p; reflexivity.
  - destruct cs as [hk [fc ld af sr cr] b p [cd cp ce] k].
    unfold Capture.drawFrame, Capture.processFrame, seq, emit, modify, skip. simpl.
    destruct (Capture.ready t); [|reflexivity].
    destruct (Capture.gate t _); [|reflexivity].
    destruct cr, cp, p; reflexivity.
  - simpl. rewrite Hl. unfold Capture.updateCanvasSize.
    apply Z.eqb_neq in Hw, Hh. rewrite Hw, Hh. reflexivity.
  - destruct rs as [hk i cv p [cd cp ce] tm out nr]. simpl in *. subst.
    unfold Remote.processFrame. simpl. rewrite He, Hx. simpl.
    apply Z.eqb_neq in Hnw, Hnh. rewrite Hnw, Hnh. simpl.
    destruct p; split; reflexivity.
Qed.

Lemma canvas_size_updates_witness :
  let cs := fst (Capture.run four_frames Capture.initial) in
  Capture.listening (Capture.browser cs) = true
  /\ Remote.canvasRef remote_with_canvas = Some default_canvas
  /\ Capture.canvas (Capture.browser (fst (Capture.step (Capture.LoadedMetadata 1280 720) cs)))
     = {| width := 1280; height := 720 |}
  /\ Remote.canvasRef (fst (Remote.processFrame (poll 100) remote_with_canvas))
     = Some {| width := 640; height := 480 |}
  /\ Remote.canvasRef (fst (Remote.processFrame (poll 200)
                             (fst (Remote.processFrame (poll 100) remote_with_canvas))))
     = Some {| width := 640; height := 480 |}.
Proof.
  split; [reflexivity|]. split; [reflexivity|].
  assert (Hz : forall a : Z, (a =? 0) = false -> a <> 0)
    by (intros a Ha; apply Z.eqb_neq; exact Ha).
  pose proof (canvas_size_updates
                (fst (Capture.run four_frames Capture.initial)) (frame 1066) 1280 720
                remote_with_canvas (poll 100) default_canvas
                eq_refl (Hz 1280 eq_refl) (Hz 720 eq_refl) eq_refl eq_refl eq_refl eq_refl
                eq_refl (Hz 640 eq_refl) (Hz 480 eq_refl)) as ((_ & _ & H3) & (H4 & _)).
  pose proof (canvas_size_updates
                (fst (Capture.run four_frames Capture.initial)) (frame 1066) 1280 720
                (fst (Remote.processFrame (poll 100) remote_with_canvas)) (poll 200)
                {| width := 640; height := 480 |}
                eq_refl (Hz 1280 eq_refl) (Hz 720 eq_refl) eq_refl eq_refl eq_refl eq_refl
                eq_refl (Hz 640 eq_refl) (Hz 480 eq_refl)) as (_ & (H5 & _)).
  split; [exact H3|]. split; [exact H4|exact H5].
Defined.

(** C10.  In the capture variant, whatever events come and however the
    requests settle, the issue times of consecutive requests are more than
    500 ms apart: the time is stored before the request leaves, in the same
    synchronous run, and no settlement changes it.  (The clock read in
    [processFrame] is not earlier than the one read just before in
    [drawFrame].) *)
Theorem capture_requests_spaced (events : list Capture.Event) :
  Forall Capture.clock_ok events ->
  spaced 500 (issue_times (snd (Capture.run events Capture.initial))).
Proof.
  intros Hok.
  apply (run_spaced events Capture.initial [] Hok I). left. reflexivity.
Qed.

Lemma capture_requests_spaced_witness :
  Forall Capture.clock_ok two_requests
  /\ issue_times (snd (Capture.run two_requests Capture.initial)) = [1066; 1600]
  /\ spaced 500 (issue_times (snd (Capture.run two_requests Capture.initial))).
Proof.
  assert (Hok : Forall Capture.clock_ok two_requests).
  { unfold two_requests, first_request, while_pending. simpl.
    repeat constructor; simpl; lia. }
  split; [exact Hok|]. split; [reflexivity|].
  apply (capture_requests_spaced two_requests Hok).
Defined.

(** ** Further properties of the capture variant *)

Section CaptureMore.
Import Capture.

Lemma processFrame_refs (t : Tick) (st : State) :
  frameCountRef (refs (fst (processFrame t st))) = frameCountRef (refs st)
  /\ device (browser (fst (processFrame t st))) = device (browser st)
  /\ pending_frame (browser (fst (processFrame t st))) = pending_frame (browser st).
Proof.
  destruct st as [hk [fc ld af sr cr] b p [cd cp ce] k].
  unfold processFrame. destruct cr, cp, p; repeat split.
Qed.

Lemma resume_refs (o : Outcome) (st : State) :
  refs (fst (resume o st)) = refs st
  /\ count is_draw (snd (resume o st)) = 0%nat.
Proof.
  destruct st as [h r b p c k]. unfold resume.
  destruct (after_fetch o); destruct p; split; reflexivity.
Qed.

(** What one run of [drawFrame] does to the frame counter and to the
    effect sequence. *)
Lemma drawFrame_counts (t : Tick) (st : State) :
  frameCountRef (refs (fst (drawFrame t st)))
  = frameCountRef (refs st) + Z.of_nat (count is_draw (snd (drawFrame t st)))
  /\ (issue_times (snd (drawFrame t st)) = []
      \/ (issue_times (snd (drawFrame t st)) = [now_issue t]
          /\ Z.rem (frameCountRef (refs (fst (drawFrame t st)))) 5 = 0
          /\ frameCountRef (refs (fst (drawFrame t st))) = frameCountRef (refs st) + 1))
  /\ device (browser (fst (drawFrame t st))) = device (browser st).
Proof.
  rewrite drawFrame_unfold. destruct (ready t).
  2:{ simpl. split; [lia|]. split; [left|]; reflexivity. }
  cbv zeta. destruct (gate t (counted st)) eqn:Hg.
  - destruct (processFrame_refs t (counted st)) as (Hf & Hd & _).
    destruct (processFrame_draws_nothing t (counted st)) as (_ & _ & Hc & _).
    cbn [fst snd].
    change (DrawFrame :: ?l ++ ?m) with ([DrawFrame] ++ l ++ m).
    rewrite !count_app, Hc, !issue_times_app. simpl.
    change (frameCountRef (refs (fst (processFrame t (counted st)))))
      with (frameCountRef (refs (fst (processFrame t (counted st))))).
    split; [|split].
    + transitivity (frameCountRef (refs (fst (processFrame t (counted st))))); [reflexivity|].
      rewrite Hf. simpl. lia.
    + destruct (processFrame_cases t (counted st)) as [H|(_ & _ & H & _)].
      * left. rewrite H. reflexivity.
      * right. rewrite H. simpl. split; [reflexivity|]. split.
        -- transitivity (Z.rem (frameCountRef (refs (fst (processFrame t (counted st))))) 5);
             [reflexivity|].
           rewrite Hf. unfold gate in Hg. apply andb_true_iff in Hg.
           destruct Hg as [Hg _]. apply Z.eqb_eq in Hg. exact Hg.
        -- transitivity (frameCountRef (refs (fst (processFrame t (counted st)))));
             [reflexivity|].
           rewrite Hf. reflexivity.
    + transitivity (device (browser (fst (processFrame t (counted st))))); [reflexivity|].
      rewrite Hd. reflexivity.
  - simpl. split; [lia|]. split; [left|]; reflexivity.
Qed.

Lemma step_counts (e : Event) (st : State) :
  frameCountRef (refs (fst (step e st)))
  = frameCountRef (refs st) + Z.of_nat (count is_draw (snd (step e st)))
  /\ (issue_times (snd (step e st)) = []
      \/ (exists t, (e = DeviceGranted t \/ e = AnimationFrame t)
                    /\ issue_times (snd (step e st)) = [now_issue t]
                    /\ Z.rem (frameCountRef (refs (fst (step e st)))) 5 = 0
                    /\ frameCountRef (refs (fst (step e st)))
                       = frameCountRef (refs st) + 1)).
Proof.
  destruct e as [ctx|t| |w h|t|id o| | | ]; simpl.
  - destruct (phase st); [destruct ctx|..]; simpl; split; try lia; left; reflexivity.
  - destruct (device (browser st)); try (simpl; split; [lia|left; reflexivity]).
    rewrite !seq_modify.
    match goal with |- context [drawFrame t ?s] =>
      destruct (drawFrame_counts t s) as (H1 & H2 & _) end.
    split; [exact H1|]. destruct H2 as [H2|(H2 & H3 & H4)]; [left; exact H2|].
    right. exists t. split; [left; reflexivity|]. repeat split; assumption.
  - destruct st as [hk r [d tl li cv pf nh out nr] p c k].
    destruct d, p; simpl; split; try lia; left; reflexivity.
  - destruct (listening (browser st)); [|simpl; split; [lia|left; reflexivity]].
    unfold updateCanvasSize.
    destruct (negb (w =? 0) && negb (h =? 0)); simpl; split; try lia; left; reflexivity.
  - destruct (pending_frame (browser st)); [|simpl; split; [lia|left; reflexivity]].
    rewrite !seq_modify.
    match goal with |- context [drawFrame t ?s] =>
      destruct (drawFrame_counts t s) as (H1 & H2 & _) end.
    split; [exact H1|]. destruct H2 as [H2|(H2 & H3 & H4)]; [left; exact H2|].
    right. exists t. split; [right; reflexivity|]. repeat split; assumption.
  - destruct (is_outstanding id st); [|simpl; split; [lia|left; reflexivity]].
    rewrite !seq_modify.
    match goal with |- context [resume o ?s] =>
      destruct (resume_refs o s) as [H1 H2];
      destruct (resume_issue o s) as [H3 _] end.
    rewrite H1, H2. simpl. split; [lia|left; exact H3].
  - destruct st as [hk r b p c k]. destruct p; simpl; split; try lia; left; reflexivity.
  - destruct st as [hk r b p c k]. destruct p; simpl; split; try lia; left; reflexivity.
  - destruct st as [hk [fc ld af sr cr] b p c k].
    destruct p; simpl; try (split; [lia|left; reflexivity]).
    unfold seq, modify, effect_cleanup, stop_tracks, skip; simpl.
    destruct k; [destruct sr|]; simpl; split; try lia; left; reflexivity.
Qed.

Lemma run_counts (events : list Event) (st : State) :
  frameCountRef (refs (fst (run events st)))
  = frameCountRef (refs st) + Z.of_nat (count is_draw (snd (run events st))).
Proof.
  revert st. induction events as [|e rest IH]; intros st; [simpl; lia|].
  unfold run. rewrite run_cons. cbn [fst snd]. rewrite count_app.
  fold (run rest (fst (step e st))). rewrite IH.
  destruct (step_counts e st) as [H1 _]. rewrite H1. lia.
Qed.

(** The frame counter is the number of frames drawn so far. *)
Theorem frame_counter_counts_drawn_frames (events : list Event) :
  frameCountRef (refs (fst (run events initial)))
  = Z.of_nat (count is_draw (snd (run events initial))).
Proof. rewrite run_counts. reflexivity. Qed.

(** At most one request is issued for every five frames drawn. *)
Theorem one_request_per_five_frames (events : list Event) :
  (5 * List.length (issue_times (snd (run events initial)))
   <= count is_draw (snd (run events initial)))%nat.
Proof.
  assert (H : forall st,
             0 <= frameCountRef (refs st) ->
             0 <= frameCountRef (refs (fst (run events st)))
             /\ Z.of_nat (List.length (issue_times (snd (run events st))))
                <= frameCountRef (refs (fst (run events st))) / 5
                   - frameCountRef (refs st) / 5).
  { induction events as [|e rest IH]; intros st Hpos; [simpl; split; lia|].
    unfold run. rewrite run_cons. cbn [fst snd]. rewrite issue_times_app, length_app.
    fold (run rest (fst (step e st))).
    destruct (step_counts e st) as [H1 H2].
    assert (Hpos1 : 0 <= frameCountRef (refs (fst (step e st)))) by lia.
    destruct (IH _ Hpos1) as [H3 H4]. split; [exact H3|].
    assert (Hmono : frameCountRef (refs st) <= frameCountRef (refs (fst (step e st)))) by lia.
    destruct H2 as [H2|(t & _ & H2 & H5 & Hb)]; rewrite H2; simpl List.length.
    - pose proof (Z.div_le_mono _ _ 5 ltac:(lia) Hmono). lia.
    - set (a := frameCountRef (refs st)) in *.
      set (b := frameCountRef (refs (fst (step e st)))) in *.
      apply Z.rem_divide in H5; [|lia]. destruct H5 as [m Hm].
      assert (Hdb : b / 5 = m) by (rewrite Hm; apply Z.div_mul; lia).
      assert (Hda : a / 5 = m - 1).
      { assert (Ha : a = (m - 1) * 5 + 4) by lia.
        rewrite Ha. rewrite Z.div_add_l by lia. change (4 / 5) with 0. lia. }
      lia. }
  destruct (H initial ltac:(simpl; lia)) as [_ Hle].
  rewrite run_counts in Hle. change (frameCountRef (refs initial)) with 0 in Hle.
  rewrite Z.add_0_l in Hle.
  change (0 / 5) with 0 in Hle.
  pose proof (Z.mul_div_le (Z.of_nat (count is_draw (snd (run events initial)))) 5
                ltac:(lia)) as Hdiv.
  apply Nat2Z.inj_le. rewrite Nat2Z.inj_mul. change (Z.of_nat 5) with 5. lia.
Qed.

Lemma bounded_spaced_short (from : Z) (ts : list Z) :
  spaced 500 ts -> Forall (fun t => from <= t <= from + 500) ts ->
  (List.length ts <= 1)%nat.
Proof.
  intros Hs Hb. destruct ts as [|t1 [|t2 rest]]; simpl; try lia.
  destruct Hs as [Hgap _].
  inversion Hb as [|? ? H1 Hb']; subst. inversion Hb' as [|? ? H2 _]; subst. lia.
Qed.

Lemma run_issue_in_burst (from : Z) (events : list Event) :
  forall st, Forall (in_burst from) events ->
             Forall (fun t => from <= t <= from + 500) (issue_times (snd (run events st))).
Proof.
  induction events as [|e rest IH]; intros st Hb; [constructor|].
  inversion Hb as [|? ? He Hrest]; subst.
  unfold run. rewrite run_cons. cbn [snd]. rewrite issue_times_app.
  apply Forall_app. split; [|apply IH; exact Hrest].
  destruct (step_counts e st) as [_ [H|(t & [->| ->] & H & _)]]; rewrite H;
    [constructor|..]; (constructor; [exact He|constructor]).
Qed.

(** Display refreshes whose clock readings all lie within one window of
    500 ms issue at most one request, however many they are. *)
Theorem burst_issues_at_most_one_request (from : Z) (events : list Event) :
  Forall clock_ok events ->
  Forall (in_burst from) events ->
  (List.length (issue_times (snd (run events initial))) <= 1)%nat.
Proof.
  intros Hok Hb. apply (bounded_spaced_short from).
  - apply (run_spaced events initial [] Hok I). left. reflexivity.
  - apply run_issue_in_burst. exact Hb.
Qed.

(** A state in which nothing is scheduled and the camera is not granted
    stays so, and draws and issues nothing, for as long as the camera is not
    granted. *)
Lemma step_without_camera (e : Event) (st : State) :
  without_camera st = true ->
  pending_frame (browser st) = None ->
  without_camera (fst (step e st)) = true ->
  pending_frame (browser (fst (step e st))) = None
  /\ count is_draw (snd (step e st)) = 0%nat
  /\ issue_times (snd (step e st)) = [].
Proof.
  unfold without_camera.
  destruct st as [hk [fc ld af sr cr] [d tl li cv pf nh out nr] p c k]. simpl.
  intros Hd Hp Hd'. subst pf.
  destruct e as [ctx|t| |w h|t|id o| | | ]; simpl in *.
  - destruct p; [destruct ctx|..]; repeat split.
  - destruct d; try discriminate; try (repeat split; fail).
    exfalso. rewrite !seq_modify in Hd'.
    match type of Hd' with context [drawFrame t ?s] =>
      destruct (drawFrame_counts t s) as (_ & _ & H) end.
    rewrite H in Hd'. discriminate.
  - destruct d, p; repeat split.
  - destruct li; [|repeat split]. unfold updateCanvasSize.
    destruct (negb (w =? 0) && negb (h =? 0)); repeat split.
  - repeat split.
  - destruct (is_outstanding id _); [|repeat split].
    rewrite !seq_modify.
    match goal with |- context [resume o ?s] =>
      destruct (resume_refs o s) as [_ H2];
      destruct (resume_issue o s) as [H3 _];
      pose proof (capture_resume_browser o s) as H4 end.
    rewrite H2, H3, H4. repeat split.
  - destruct p; repeat split.
  - destruct p; repeat split.
  - destruct p; try (repeat split; fail).
    unfold seq, modify, effect_cleanup, stop_tracks, skip; simpl.
    destruct k; [destruct sr|]; repeat split.
Qed.

(** Before the component is mounted nothing has been asked of the
    browser. *)
Lemma step_fresh_idle (e : Event) (st : State) :
  (phase st = Fresh -> device (browser st) = NotRequested) ->
  phase (fst (step e st)) = Fresh -> device (browser (fst (step e st))) = NotRequested.
Proof.
  intros Hf. pose proof (step_keeps e st) as Hk.
  destruct e as [ctx|t| |w h|t|id o| | | ].
  - simpl. destruct (phase st) eqn:Hp; simpl; [destruct ctx; simpl; discriminate|..];
      rewrite Hp; discriminate.
  - destruct Hk as (K1 & _). rewrite K1. intros Hp. specialize (Hf Hp).
    simpl. rewrite Hf. exact Hf.
  - destruct Hk as (K1 & _). rewrite K1. intros Hp. specialize (Hf Hp).
    simpl. rewrite Hf. exact Hf.
  - destruct Hk as (K1 & _). rewrite K1. intros Hp. specialize (Hf Hp).
    simpl. destruct (listening (browser st)); [|exact Hf]. unfold updateCanvasSize.
    destruct (negb (w =? 0) && negb (h =? 0)); exact Hf.
  - destruct Hk as (K1 & _). rewrite K1. intros Hp. specialize (Hf Hp).
    simpl. destruct (pending_frame (browser st)); [|exact Hf]. rewrite !seq_modify.
    match goal with |- context [drawFrame t ?s] =>
      destruct (drawFrame_counts t s) as (_ & _ & H) end.
    rewrite H. exact Hf.
  - destruct Hk as (K1 & _). rewrite K1. intros Hp. specialize (Hf Hp).
    simpl. destruct (is_outstanding id st); [|exact Hf]. rewrite !seq_modify.
    rewrite capture_resume_browser. exact Hf.
  - destruct Hk as (K1 & _). rewrite K1. intros Hp. specialize (Hf Hp).
    destruct st as [hk r b p c k]. simpl in *. subst p. exact Hf.
  - destruct Hk as (K1 & _). rewrite K1. intros Hp. specialize (Hf Hp).
    destruct st as [hk r b p c k]. simpl in *. subst p. exact Hf.
  - simpl. destruct (phase st) eqn:Hp; simpl.
    + rewrite Hp. intros _. exact (Hf eq_refl).
    + unfold seq, modify, effect_cleanup, stop_tracks, skip.
      destruct (has_cleanup st); [destruct (streamRef (refs st))|]; simpl; discriminate.
    + rewrite Hp. discriminate.
Qed.

Lemma granted_stays (e : Event) (st : State) :
  (phase st = Fresh -> device (browser st) = NotRequested) ->
  without_camera st = false -> without_camera (fst (step e st)) = false.
Proof.
  unfold without_camera.
  destruct st as [hk [fc ld af sr cr] [d tl li cv pf nh out nr] p c k]. simpl.
  intros Hf. destruct d; try discriminate. intros _.
  destruct e as [ctx|t| |w h|t|id o| | | ]; simpl.
  - destruct p; try reflexivity. specialize (Hf eq_refl). discriminate.
  - reflexivity.
  - reflexivity.
  - destruct li; [|reflexivity]. unfold updateCanvasSize.
    destruct (negb (w =? 0) && negb (h =? 0)); reflexivity.
  - destruct pf; [|reflexivity]. rewrite !seq_modify.
    match goal with |- context [drawFrame t ?s] =>
      destruct (drawFrame_counts t s) as (_ & _ & H) end.
    rewrite H. reflexivity.
  - destruct (is_outstanding id _); [|reflexivity]. rewrite !seq_modify.
    rewrite capture_resume_browser. reflexivity.
  - destruct p; reflexivity.
  - destruct p; reflexivity.
  - destruct p; try reflexivity.
    unfold seq, modify, effect_cleanup, stop_tracks, skip; simpl.
    destruct k; [destruct sr|]; reflexivity.
Qed.

Lemma granted_stays_run (events : list Event) (st : State) :
  (phase st = Fresh -> device (browser st) = NotRequested) ->
  without_camera st = false -> without_camera (fst (run events st)) = false.
Proof.
  revert st. induction events as [|e rest IH]; intros st Hf H; [exact H|].
  unfold run. rewrite run_cons. cbn [fst].
  apply IH; [apply step_fresh_idle; exact Hf|apply granted_stays; assumption].
Qed.

Lemma run_without_camera (events : list Event) :
  forall st,
    (phase st = Fresh -> device (browser st) = NotRequested) ->
    without_camera st = true ->
    pending_frame (browser st) = None ->
    without_camera (fst (run events st)) = true ->
    pending_frame (browser (fst (run events st))) = None
    /\ count is_draw (snd (run events st)) = 0%nat
    /\ issue_times (snd (run events st)) = [].
Proof.
  induction events as [|e rest IH]; intros st Hf Hd Hp Hend; [repeat split; assumption|].
  unfold run in *. rewrite run_cons in *. cbn [fst snd] in *.
  pose proof (step_fresh_idle e st Hf) as Hf1.
  assert (Hmid : without_camera (fst (step e st)) = true).
  { destruct (without_camera (fst (step e st))) eqn:Hm; [reflexivity|].
    pose proof (granted_stays_run rest _ Hf1 Hm) as Hg. unfold run in Hg.
    rewrite Hg in Hend. discriminate. }
  destruct (step_without_camera e st Hd Hp Hmid) as (H1 & H2 & H3).
  destruct (IH _ Hf1 Hmid H1 Hend) as (H4 & H5 & H6).
  rewrite count_app, issue_times_app, H2, H3, H5, H6. repeat split. exact H4.
Qed.

(** As long as the camera has not been granted (the page has no 2D
    context, the permission is pending, or it was denied), no frame is drawn,
    no display callback is scheduled and no request is issued. *)
Theorem nothing_runs_without_camera (events : list Event) :
  without_camera (fst (run events initial)) = true ->
  pending_frame (browser (fst (run events initial))) = None
  /\ count is_draw (snd (run events initial)) = 0%nat
  /\ issue_times (snd (run events initial)) = [].
Proof. intros H. apply run_without_camera; [reflexivity|reflexivity|reflexivity|exact H]. Qed.

Lemma step_after_unmount (e : Event) (st : State) :
  phase st = Gone -> canvasRef (refs st) = false ->
  phase (fst (step e st)) = Gone
  /\ canvasRef (refs (fst (step e st))) = false
  /\ issue_times (snd (step e st)) = []
  /\ hooks (fst (step e st)) = hooks st.
Proof.
  intros Hp Hc.
  assert (Hm : mounted st = false) by (unfold mounted; rewrite Hp; reflexivity).
  assert (Hdraw : forall t s, canvasRef (refs s) = false ->
                              issue_times (snd (drawFrame t s)) = []).
  { intros t s Hs. rewrite drawFrame_unfold. destruct (ready t); [|reflexivity].
    cbv zeta. destruct (gate t (counted s)); [|reflexivity].
    destruct (processFrame_cases t (counted s)) as [H|(H & _)].
    - rewrite H. reflexivity.
    - change (canvasRef (refs (counted s))) with (canvasRef (refs s)) in H.
      rewrite Hs in H. discriminate. }
  pose proof (step_keeps e st) as Hk.
  destruct e as [ctx|t| |w h|t|id o| | | ].
  - simpl. rewrite Hp. repeat split; assumption.
  - destruct Hk as (K1 & _ & K3 & K4). rewrite K1, K3, (K4 Hm). repeat split; try assumption.
    simpl. destruct (device (browser st)); try reflexivity.
    rewrite !seq_modify. apply Hdraw. exact Hc.
  - destruct Hk as (K1 & _ & K3 & K4). rewrite K1, K3, (K4 Hm). repeat split; try assumption.
    destruct (step_issue DeviceDenied st I) as [[H _]|(t & H1 & H2 & H3)]; [exact H|].
    exfalso. clear - H1. simpl in H1.
    destruct st as [hk r [d tl li cv pf nh out nr] p c k].
    destruct d, p; discriminate.
  - destruct Hk as (K1 & _ & K3 & K4). rewrite K1, K3, (K4 Hm). repeat split; try assumption.
    simpl. destruct (listening (browser st)); [|reflexivity]. unfold updateCanvasSize.
    destruct (negb (w =? 0) && negb (h =? 0)); reflexivity.
  - destruct Hk as (K1 & _ & K3 & K4). rewrite K1, K3, (K4 Hm). repeat split; try assumption.
    simpl. destruct (pending_frame (browser st)); [|reflexivity].
    rewrite !seq_modify. apply Hdraw. exact Hc.
  - destruct Hk as (K1 & _ & K3 & K4). rewrite K1, K3, (K4 Hm). repeat split; try assumption.
    simpl. destruct (is_outstanding id st); [|reflexivity].
    rewrite !seq_modify. apply resume_issue.
  - simpl. rewrite Hm. repeat split; assumption.
  - simpl. rewrite Hm. repeat split; assumption.
  - simpl. rewrite Hp. repeat split; assumption.
Qed.

(** Once the component is unmounted, no further inference request is
    issued and no state cell changes, whatever events still arrive (frames
    may still be drawn). *)
Theorem no_request_after_unmount (before later : list Event) :
  let st := fst (run before initial) in
  phase st = Gone ->
  issue_times (snd (run later st)) = []
  /\ hooks (fst (run later st)) = hooks st.
Proof.
  intros st Hp.
  assert (Hc : canvasRef (refs st) = false).
  { destruct (run_inv before initial initial_inv) as (_ & Hcr & _).
    fold st in Hcr. rewrite Hcr. unfold mounted. rewrite Hp. reflexivity. }
  clearbody st. revert st Hp Hc.
  induction later as [|e rest IH]; intros st Hp Hc; [split; reflexivity|].
  unfold run. rewrite run_cons. cbn [fst snd]. rewrite issue_times_app.
  destruct (step_after_unmount e st Hp Hc) as (H1 & H2 & H3 & H4).
  destruct (IH _ H1 H2) as [H5 H6]. fold (run rest (fst (step e st))).
  rewrite H3, H5, H6, H4. split; reflexivity.
Qed.

End CaptureMore.

(** ** Further properties of the inference answer and of the remote-stream
    variant *)

Lemma lookup_absent (k : string) (fields : list (string * JS.value)) :
  (forall v, ~ In (k, v) fields) -> JS.lookup k fields = JS.Undefined.
Proof.
  induction fields as [|[k' v'] rest IH]; intros Hn; [reflexivity|].
  simpl. destruct (String.eqb_spec k k') as [->|Hne].
  - exfalso. apply (Hn v'). left. reflexivity.
  - apply IH. intros v Hin. apply (Hn v). right. exact Hin.
Qed.

(** An accepted answer whose body is a JSON object with an array of
    detections, none of them [null], replaces the whole [detections] cell by
    that array: what was there before is dropped, not merged.  The error cell
    keeps its value, the flag is reset and the request is settled. *)
Theorem accepted_detections_replace_the_cell
  (st : Capture.State) (id : nat) (fields : list (string * JS.value))
  (items : list JS.value) :
  Capture.is_outstanding id st = true ->
  Capture.mounted st = true ->
  JS.lookup "detections" fields = JS.Arr items ->
  Forall (fun d => d <> JS.Null) items ->
  let st' := fst (Capture.step (Capture.Response id (Responds true (Json (JS.Obj fields)))) st) in
  detections (Capture.hooks st') = JS.Arr items
  /\ error (Capture.hooks st') = error (Capture.hooks st)
  /\ isProcessing (Capture.hooks st') = false
  /\ Capture.is_outstanding id st' = false
  /\ Capture.refs st' = Capture.refs st.
Proof.
  intros Ho Hm Hd _ st'. subst st'. simpl. rewrite Ho, seq_modify.
  split; [|split; [|split; [|split]]].
  - destruct st as [h r b p c k]. unfold Capture.mounted in Hm. simpl in Hm.
    destruct p; try discriminate. unfold Capture.resume. simpl. exact Hd.
  - destruct st as [h r b p c k]. unfold Capture.mounted in Hm. simpl in Hm.
    destruct p; try discriminate. reflexivity.
  - destruct st as [h r b p c k]. unfold Capture.mounted in Hm. simpl in Hm.
    destruct p; try discriminate. reflexivity.
  - unfold Capture.is_outstanding. rewrite capture_resume_browser. simpl.
    apply removed_not_member.
  - match goal with |- context [Capture.resume ?o ?s] =>
      destruct (resume_refs o s) as [H _] end.
    rewrite H. reflexivity.
Qed.

Lemma accepted_detections_replace_the_cell_witness :
  let st := fst (Capture.run first_request Capture.initial) in
  let person := JS.Obj [("class", JS.Str "person");
                        ("confidence", JS.Num (JS.Number true "0.87"))] in
  (Capture.is_outstanding 0 st = true /\ Capture.mounted st = true)
  /\ detections (Capture.hooks (fst (Capture.step (Capture.Response 0 one_person) st)))
     = JS.Arr [person].
Proof.
  split; [split; reflexivity|].
  assert (Hn : Forall (fun d => d <> JS.Null)
                 [JS.Obj [("class", JS.Str "person");
                          ("confidence", JS.Num (JS.Number true "0.87"))]]).
  { constructor; [discriminate|constructor]. }
  destruct (accepted_detections_replace_the_cell
              (fst (Capture.run first_request Capture.initial)) 0
              [("detections",
                JS.Arr [JS.Obj [("class", JS.Str "person");
                                ("confidence", JS.Num (JS.Number true "0.87"))]])]
              _ eq_refl eq_refl eq_refl Hn) as (H & _).
  exact H.
Defined.

(** A 2xx answer whose body is JSON [null], or cannot be read as JSON, is
    handled as a failure: reading [detections] of [null] throws (as reading
    the body does), the error cell is filled, [detections] keeps its value and
    the flag is reset. *)
Theorem accepted_answer_without_object_is_failure
  (st : Capture.State) (id : nat) (e : JS.thrown) :
  Capture.is_outstanding id st = true ->
  Capture.mounted st = true ->
  let after_null := fst (Capture.step (Capture.Response id (Responds true (Json JS.Null))) st) in
  let after_unreadable :=
    fst (Capture.step (Capture.Response id (Responds true (JsonRejects e))) st) in
  (detections (Capture.hooks after_null) = detections (Capture.hooks st)
   /\ error (Capture.hooks after_null) <> None
   /\ isProcessing (Capture.hooks after_null) = false)
  /\ (detections (Capture.hooks after_unreadable) = detections (Capture.hooks st)
      /\ error (Capture.hooks after_unreadable) = Some (surfaced e)
      /\ isProcessing (Capture.hooks after_unreadable) = false).
Proof.
  intros Ho Hm. simpl. rewrite Ho, !seq_modify.
  destruct st as [h r b p c k]. unfold Capture.mounted in Hm. simpl in Hm.
  destruct p; try discriminate. unfold Capture.resume. simpl.
  repeat split. discriminate.
Qed.

Lemma accepted_answer_without_object_is_failure_witness :
  let st := fst (Capture.run first_request Capture.initial) in
  let st' := fst (Capture.step (Capture.Response 0 (Responds true (Json JS.Null))) st) in
  (Capture.is_outstanding 0 st = true /\ Capture.mounted st = true)
  /\ detections (Capture.hooks st') = JS.Arr []
  /\ error (Capture.hooks st') <> None.
Proof.
  split; [split; reflexivity|].
  destruct (accepted_answer_without_object_is_failure
              (fst (Capture.run first_request Capture.initial)) 0 JS.NotAnError
              eq_refl eq_refl) as ((H1 & H2 & _) & _).
  split; [exact H1|exact H2].
Defined.

Section RemoteMore.
Import Remote.

Lemma remote_resume_idle (o : Outcome) (st : State) :
  canvasRef (fst (resume o st)) = canvasRef st
  /\ outstanding (fst (resume o st)) = outstanding st.
Proof.
  destruct (remote_resume_frame o st) as (H1 & H2 & _). split; assumption.
Qed.

Lemma remote_step_inert (e : Event) (st : State) :
  canvasRef st = None -> outstanding st = [] ->
  detections (hooks st) = JS.Arr [] -> isProcessing (hooks st) = false ->
  (canvasRef (fst (step e st)) = None /\ outstanding (fst (step e st)) = []
   /\ detections (hooks (fst (step e st))) = JS.Arr []
   /\ isProcessing (hooks (fst (step e st))) = false)
  /\ existsb is_fetch (snd (step e st)) = false
  /\ count is_draw (snd (step e st)) = 0%nat.
Proof.
  destruct st as [h i c p cap tm out nr]. simpl. intros -> -> Hd Hp.
  destruct e as [|t|id o| | |]; simpl.
  - destruct p; repeat split; assumption.
  - destruct tm; repeat split; assumption.
  - repeat split; assumption.
  - destruct p; repeat split; assumption.
  - destruct p; repeat split; assumption.
  - destruct p; repeat split; assumption.
Qed.

(** The remote-stream component, as rendered (an image carrying [imgRef] and
    no element carrying [canvasRef]), never issues an inference request and
    never draws: whatever events arrive, [detections] stays the empty array,
    [isProcessing] stays [false] and no request is outstanding. *)
Theorem remote_component_never_detects (events : list Event) :
  let r := run events initial in
  existsb is_fetch (snd r) = false
  /\ count is_draw (snd r) = 0%nat
  /\ detections (hooks (fst r)) = JS.Arr []
  /\ isProcessing (hooks (fst r)) = false
  /\ outstanding (fst r) = [].
Proof.
  assert (H : forall st,
             canvasRef st = None -> outstanding st = [] ->
             detections (hooks st) = JS.Arr [] -> isProcessing (hooks st) = false ->
             existsb is_fetch (snd (run events st)) = false
             /\ count is_draw (snd (run events st)) = 0%nat
             /\ detections (hooks (fst (run events st))) = JS.Arr []
             /\ isProcessing (hooks (fst (run events st))) = false
             /\ outstanding (fst (run events st)) = []).
  { induction events as [|e rest IH]; intros st Hc Ho Hd Hp; [repeat split; assumption|].
    unfold run. rewrite run_cons. cbn [fst snd].
    destruct (remote_step_inert e st Hc Ho Hd Hp) as ((H1 & H2 & H3 & H4) & H5 & H6).
    destruct (IH _ H1 H2 H3 H4) as (I1 & I2 & I3 & I4 & I5).
    rewrite existsb_app, count_app, H5, H6. repeat split; assumption. }
  apply H; reflexivity.
Qed.

(** When [processFrame] gets past its first line and then finds no 2D
    context or an image without natural dimensions, it returns from inside
    the [try] block: the flag is set and reset in the same run, nothing is
    drawn, the canvas keeps its size and no request is issued. *)
Theorem remote_processFrame_without_picture (st : State) (t : Tick) (c : Canvas) :
  canvasRef st = Some c ->
  imgRef st = true ->
  isProcessing (captured st) = false ->
  JS.truthy_message (error (captured st)) = false ->
  has_ctx t = false \/ naturalWidth t = 0 \/ naturalHeight t = 0 ->
  snd (processFrame t st) = [SetIsProcessing true; SetIsProcessing false]
  /\ canvasRef (fst (processFrame t st)) = Some c
  /\ outstanding (fst (processFrame t st)) = outstanding st
  /\ isProcessing (hooks (fst (processFrame t st)))
     = isProcessing (hooks st) && negb (mounted st).
Proof.
  destruct st as [h i cv p [cd cp ce] tm out nr]. simpl.
  intros -> -> -> He Hcase. unfold processFrame. simpl. rewrite He. simpl.
  destruct (has_ctx t) eqn:Hx; simpl.
  - assert (Hz : negb (naturalWidth t =? 0) && negb (naturalHeight t =? 0) = false).
    { destruct Hcase as [Hc|[Hc|Hc]]; [discriminate| |]; rewrite Hc; simpl;
        [reflexivity|apply andb_false_r]. }
    rewrite Hz. destruct p; simpl; repeat split;
      rewrite ?andb_true_r, ?andb_false_r; reflexivity.
  - destruct p; simpl; repeat split; rewrite ?andb_true_r, ?andb_false_r; reflexivity.
Qed.

(** When the accepted answer carries no [processed_image], the continuation
    still loads an image, from a data URI that ends in the text
    [undefined], before it stores the detections. *)
Theorem remote_annotated_image_missing (st : State) (fields : list (string * JS.value)) :
  (forall v, ~ In ("processed_image", v) fields) ->
  snd (resume (Responds true (Json (JS.Obj fields))) st)
  = [LoadAnnotated "data:image/jpeg;base64,undefined";
     SetDetections (JS.lookup "detections" fields);
     SetIsProcessing false].
Proof.
  intros Hn. unfold resume, after_fetch. simpl.
  rewrite (lookup_absent "processed_image" fields Hn). simpl.
  destruct st as [h i cv p cap tm out nr]. destruct p; reflexivity.
Qed.

End RemoteMore.

Lemma remote_processFrame_without_picture_witness :
  let t := {| Remote.has_ctx := true; Remote.naturalWidth := 0;
              Remote.naturalHeight := 0; Remote.at_time := 100 |} in
  Remote.canvasRef remote_with_canvas = Some default_canvas
  /\ snd (Remote.processFrame t remote_with_canvas)
     = [SetIsProcessing true; SetIsProcessing false]
  /\ Remote.canvasRef (fst (Remote.processFrame t remote_with_canvas))
     = Some default_canvas.
Proof.
  split; [reflexivity|].
  destruct (remote_processFrame_without_picture remote_with_canvas
              {| Remote.has_ctx := true; Remote.naturalWidth := 0;
                 Remote.naturalHeight := 0; Remote.at_time := 100 |}
              default_canvas eq_refl eq_refl eq_refl eq_refl
              (or_intror (or_introl eq_refl))) as (H1 & H2 & _).
  split; [exact H1|exact H2].
Defined.

Lemma remote_annotated_image_missing_witness :
  (forall v, ~ In ("processed_image", v)
               [("detections", JS.Arr [] : JS.value)])
  /\ snd (Remote.resume (Responds true (Json (JS.Obj [("detections", JS.Arr [])])))
            remote_with_canvas)
     = [LoadAnnotated "data:image/jpeg;base64,undefined";
        SetDetections (JS.Arr []); SetIsProcessing false].
Proof.
  assert (Hn : forall v, ~ In ("processed_image", v)
                           [("detections", JS.Arr [] : JS.value)]).
  { intros v [H|[]]. discriminate H. }
  split; [exact Hn|].
  apply (remote_annotated_image_missing remote_with_canvas
           [("detections", JS.Arr [])] Hn).
Defined.

(** ** Properties of the dashboard page *)

Section DashboardFacts.
Import Dashboard.

Lemma window_snoc {A} (fresh : Z -> A) (n : nat) :
  forall from, window fresh from n ++ [fresh (from + Z.of_nat n)] = window fresh from (S n).
Proof.
  induction n as [|n IH]; intros from.
  - simpl. rewrite Z.add_0_r. reflexivity.
  - rewrite Nat2Z.inj_succ.
    replace (from + Z.succ (Z.of_nat n)) with (from + 1 + Z.of_nat n) by lia.
    cbn [window app]. rewrite IH. reflexivity.
Qed.

Lemma window_last {A} (fresh : Z -> A) (n : nat) (from : Z) :
  last_sample (window fresh from (S n)) = Some (fresh (from + Z.of_nat n)).
Proof.
  change (window fresh from (S n)) with (fresh from :: window fresh (from + 1) n).
  unfold last_sample. f_equal. destruct n as [|m].
  - simpl. rewrite Z.add_0_r. reflexivity.
  - rewrite <- window_snoc, last_last. f_equal. lia.
Qed.

Lemma shift_window {A} (time_of : A -> Z) (fresh : Z -> A) (from : Z) (n : nat) :
  (forall t, time_of (fresh t) = t) ->
  shift time_of fresh (window fresh from (S n)) = Some (window fresh (from + 1) (S n)).
Proof.
  intros Ht. unfold shift. rewrite window_last, Ht.
  change (tl (window fresh from (S n))) with (window fresh (from + 1) n).
  rewrite <- window_snoc.
  replace (from + Z.of_nat n + 1) with (from + 1 + Z.of_nat n) by lia. reflexivity.
Qed.

Lemma shift_all_repeat {A} (time_of : A -> Z) (fresh : Z -> A) (buf b : list A) (k : nat) :
  shift time_of fresh buf = Some b ->
  shift_all time_of fresh (repeat buf k) = Some (repeat b k).
Proof.
  intros Hs. induction k as [|k IH]; [reflexivity|].
  simpl. rewrite Hs, IH. reflexivity.
Qed.

Lemma after_ticks_windows (n m ticks : nat) :
  forall from,
    after_ticks ticks
      {| positionBuffers := repeat (window flat from (S n)) m;
         torqueBuffers := repeat (window flat_torque from (S n)) m |}
    = Some {| positionBuffers := repeat (window flat (from + Z.of_nat ticks) (S n)) m;
              torqueBuffers := repeat (window flat_torque (from + Z.of_nat ticks) (S n)) m |}.
Proof.
  induction ticks as [|k IH]; intros from.
  - cbn [after_ticks]. change (Z.of_nat 0) with 0. rewrite Z.add_0_r. reflexivity.
  - cbn [after_ticks]. unfold updateBuffers. cbn [positionBuffers torqueBuffers].
    rewrite (shift_all_repeat time flat _ _ m
               (shift_window time flat from n (fun t => eq_refl))).
    rewrite (shift_all_repeat torque_time flat_torque _ _ m
               (shift_window torque_time flat_torque from n (fun t => eq_refl))).
    rewrite IH. rewrite Nat2Z.inj_succ.
    replace (from + 1 + Z.of_nat k) with (from + Z.succ (Z.of_nat k)) by lia.
    reflexivity.
Qed.

(** After any number of timer ticks each of the six position buffers and of
    the six torque buffers holds thirty samples, with consecutive times
    starting at the number of ticks, and every value (and goal) is 0: the
    update never throws and the graphs stay flat. *)
Theorem buffers_after_ticks (ticks : nat) :
  after_ticks ticks initial_buffers
  = Some {| positionBuffers := repeat (window flat (Z.of_nat ticks) 30) 6;
            torqueBuffers := repeat (window flat_torque (Z.of_nat ticks) 30) 6 |}.
Proof.
  pose proof (after_ticks_windows 29 6 ticks 0) as H.
  rewrite Z.add_0_l in H. exact H.
Qed.

Lemma shift_length {A} (time_of : A -> Z) (fresh : Z -> A) (buf : list A) :
  match shift time_of fresh buf with
  | Some b => buf <> [] /\ List.length b = List.length buf
  | None => buf = []
  end.
Proof.
  destruct buf as [|s rest]; [reflexivity|].
  unfold shift. simpl. split; [discriminate|].
  rewrite length_app. simpl. lia.
Qed.

Lemma shift_all_lengths {A} (time_of : A -> Z) (fresh : Z -> A) (buffers : list (list A)) :
  match shift_all time_of fresh buffers with
  | Some bs => ~ In [] buffers /\ map (@List.length A) bs = map (@List.length A) buffers
  | None => In [] buffers
  end.
Proof.
  induction buffers as [|buf rest IH]; simpl; [split; [intros []|reflexivity]|].
  pose proof (shift_length time_of fresh buf) as Hs.
  destruct (shift time_of fresh buf) as [b|].
  - destruct Hs as [Hne Hl].
    destruct (shift_all time_of fresh rest) as [bs|].
    + destruct IH as [Hn Hm]. split.
      * intros [H|H]; [apply Hne; exact H|exact (Hn H)].
      * simpl. rewrite Hl, Hm. reflexivity.
    + right. exact IH.
  - left. exact Hs.
Qed.

(** On arbitrary buffers, one run of the timer callback keeps the number of
    buffers and the length of each; it throws exactly when one of the
    buffers is empty. *)
Theorem updateBuffers_keeps_lengths (b : Buffers) :
  match updateBuffers b with
  | Some b' =>
      map (@List.length Sample) (positionBuffers b')
      = map (@List.length Sample) (positionBuffers b)
      /\ map (@List.length TorqueSample) (torqueBuffers b')
         = map (@List.length TorqueSample) (torqueBuffers b)
      /\ ~ In [] (positionBuffers b) /\ ~ In [] (torqueBuffers b)
  | None => In [] (positionBuffers b) \/ In [] (torqueBuffers b)
  end.
Proof.
  unfold updateBuffers.
  pose proof (shift_all_lengths time flat (positionBuffers b)) as Hp.
  pose proof (shift_all_lengths torque_time flat_torque (torqueBuffers b)) as Ht.
  destruct (shift_all time flat (positionBuffers b)) as [p|];
    destruct (shift_all torque_time flat_torque (torqueBuffers b)) as [t|]; simpl.
  - destruct Hp as [Hp1 Hp2]. destruct Ht as [Ht1 Ht2]. repeat split; assumption.
  - right. exact Ht.
  - left. exact Hp.
  - left. exact Hp.
Qed.

Lemma invalid_filter_every (pairs : list RobotPair) :
  (0 <? List.length
          (filter (fun p => match leader_id p with None => true | Some _ => false end
                            || match follower_id p with None => true | Some _ => false end)
             pairs))%nat
  = negb (isConfigValid pairs).
Proof.
  induction pairs as [|p rest IH]; [reflexivity|].
  unfold isConfigValid in *. simpl.
  destruct (leader_id p), (follower_id p); simpl; try reflexivity. exact IH.
Qed.

(** The start handler and the start button agree: [handleMoveStart] posts
    the request, with the pairs as they are, exactly when every pair has both
    ids; otherwise it shows the toast and posts nothing.  An enabled button
    therefore never leads to the toast. *)
Theorem start_posts_iff_config_valid
  (pairs : list RobotPair) (invertControls enableGravityControl running : bool)
  (gravity : Gravity) (robots : list Robot) :
  match handleMoveStart pairs invertControls enableGravityControl gravity with
  | PostStart body => isConfigValid pairs = true /\ robot_pairs body = pairs
  | ToastError _ => isConfigValid pairs = false
                    /\ start_disabled running pairs robots = true
  end.
Proof.
  unfold handleMoveStart. rewrite invalid_filter_every.
  destruct (isConfigValid pairs) eqn:Hv; simpl.
  - split; reflexivity.
  - split; [reflexivity|]. unfold start_disabled. rewrite Hv.
    destruct running; reflexivity.
Qed.

Lemma default_pairs_many (r0 r1 : Robot) (rest : list Robot) (p0 : RobotPair) :
  default_pairs (r0 :: r1 :: rest) p0
  = match leader_id p0, follower_id p0 with
    | None, None =>
        Some ([{| leader_id := Some 0; follower_id := Some 1;
                  leader_serial_id := name_or r0 "" |}], [name_or r0 ""])
    | _, _ => None
    end.
Proof.
  unfold default_pairs.
  assert (H2 : (Z.of_nat (List.length (r0 :: r1 :: rest)) >=? 2) = true)
    by (apply Z.geb_le; simpl List.length; lia).
  assert (H1 : (Z.of_nat (List.length (r0 :: r1 :: rest)) =? 1) = false)
    by (apply Z.eqb_neq; simpl List.length; lia).
  assert (H0 : (Z.of_nat (List.length (r0 :: r1 :: rest)) =? 0) = false)
    by (apply Z.eqb_neq; simpl List.length; lia).
  rewrite H2, H1, H0. destruct (leader_id p0), (follower_id p0); reflexivity.
Qed.

(** The default pair as a function of the number of connected robots, from
    the initial selection: none for no robot, follower 0 alone for one robot,
    leader 0 and follower 1 for two or more; the configuration is valid
    exactly in the last case. *)
Theorem default_pair_by_robot_count (robots : list Robot) :
  let st := step (Status robots) initial in
  match robots with
  | [] => robotPairs st = [unselected]
  | [_] => robotPairs st
           = [{| leader_id := None; follower_id := Some 0; leader_serial_id := "" |}]
  | r0 :: _ :: _ =>
      robotPairs st
      = [{| leader_id := Some 0; follower_id := Some 1;
            leader_serial_id := name_or r0 "" |}]
  end
  /\ connectedRobots st = robots
  /\ isConfigValid (robotPairs st) = (2 <=? List.length robots)%nat.
Proof.
  destruct robots as [|r0 [|r1 rest]]; try (repeat split; fail).
  intros st. subst st. unfold step. cbn [initial robotPairs].
  rewrite default_pairs_many. repeat split.
Qed.

(** Running the default-pair effect again changes nothing more. *)
Theorem default_pair_effect_idempotent (st : State) :
  step EffectRuns (step EffectRuns st) = step EffectRuns st.
Proof.
  destruct st as [robots pairs]. destruct pairs as [|p0 rest]; [reflexivity|].
  destruct robots as [|r0 [|r1 more]]; try reflexivity.
  unfold step. cbn [robotPairs connectedRobots]. rewrite default_pairs_many.
  destruct p0 as [[l|] [f|] s];
    cbn [leader_id follower_id option_map apply fst robotPairs connectedRobots];
    rewrite ?default_pairs_many; reflexivity.
Qed.

(** With two or more robots connected, the default-pair effect leaves a
    pair alone as soon as a leader or a follower is chosen in it. *)
Theorem chosen_pair_survives_effect (st : State) (p0 : RobotPair) (rest : list RobotPair) :
  (2 <= List.length (connectedRobots st))%nat ->
  robotPairs st = p0 :: rest ->
  leader_id p0 <> None \/ follower_id p0 <> None ->
  step EffectRuns st = st.
Proof.
  destruct st as [robots pairs]. cbn [connectedRobots robotPairs].
  intros Hn -> Hc. destruct robots as [|r0 [|r1 more]]; try (simpl in Hn; lia).
  unfold step. cbn [robotPairs connectedRobots]. rewrite default_pairs_many.
  destruct (leader_id p0), (follower_id p0); try reflexivity.
  destruct Hc as [Hc|Hc]; contradiction.
Qed.

Lemma find_from_found (value : string) (robots : list Robot) :
  forall i j,
    find_from i value robots = Some j ->
    i <= j
    /\ exists r, nth_error robots (Z.to_nat (j - i)) = Some r
                 /\ device_name r = Some value.
Proof.
  induction robots as [|r rest IH]; intros i j H; [discriminate|].
  simpl in H. destruct (named value r) eqn:Hn.
  - injection H as <-. split; [lia|]. exists r. rewrite Z.sub_diag. split; [reflexivity|].
    unfold named in Hn. destruct (device_name r) as [s|]; [|discriminate].
    apply String.eqb_eq in Hn. rewrite Hn. reflexivity.
  - destruct (IH _ _ H) as (Hle & r' & Hnth & Hd). split; [lia|].
    exists r'. split; [|exact Hd].
    replace (Z.to_nat (j - i)) with (S (Z.to_nat (j - (i + 1)))) by lia. exact Hnth.
Qed.

Lemma find_from_none (value : string) (robots : list Robot) :
  forall i, (forall r, In r robots -> device_name r <> Some value) ->
            find_from i value robots = None.
Proof.
  induction robots as [|r rest IH]; intros i Hn; [reflexivity|].
  simpl. unfold named. destruct (device_name r) as [s|] eqn:Hd.
  - destruct (String.eqb_spec s value) as [->|Hne].
    + exfalso. apply (Hn r); [left; reflexivity|exact Hd].
    + apply IH. intros r' Hin. apply Hn. right. exact Hin.
  - apply IH. intros r' Hin. apply Hn. right. exact Hin.
Qed.

Lemma find_index_found (value : string) (robots : list Robot) (i : Z) :
  find_index value robots = Some i ->
  exists r, at_index robots i = Some r /\ device_name r = Some value.
Proof.
  intros H. destruct (find_from_found value robots 0 i H) as (Hle & r & Hnth & Hd).
  exists r. split; [|exact Hd]. unfold at_index.
  assert (Hi : (i <? 0) = false) by (apply Z.ltb_ge; lia). rewrite Hi.
  rewrite Z.sub_0_r in Hnth. exact Hnth.
Qed.

(** Choosing a leader stores the position of a connected robot that carries
    the chosen device name, together with that name: the select then shows
    the chosen value, and the follower is untouched. *)
Theorem select_leader_round_trip
  (value : string) (robots : list Robot) (p0 : RobotPair) (pairs : list RobotPair) :
  select_leader value robots p0 = Some pairs ->
  exists i r,
    pairs = [{| leader_id := Some i; follower_id := follower_id p0;
                leader_serial_id := value |}]
    /\ at_index robots i = Some r
    /\ device_name r = Some value
    /\ leader_value {| leader_id := Some i; follower_id := follower_id p0;
                       leader_serial_id := value |} = value.
Proof.
  unfold select_leader. destruct (find_index value robots) as [i|] eqn:Hf; [|discriminate].
  intros H. injection H as <-.
  destruct (find_index_found value robots i Hf) as (r & Hr & Hd).
  exists i, r. repeat split; assumption.
Qed.

(** Choosing a follower stores the position of a connected robot that
    carries the chosen device name: the select then shows the chosen value,
    and the leader is untouched. *)
Theorem select_follower_round_trip
  (value : string) (robots : list Robot) (p0 : RobotPair) (pairs : list RobotPair) :
  select_follower value robots p0 = Some pairs ->
  exists i r,
    pairs = [{| leader_id := leader_id p0; follower_id := Some i;
                leader_serial_id := leader_serial_id p0 |}]
    /\ at_index robots i = Some r
    /\ device_name r = Some value
    /\ follower_value robots
         {| leader_id := leader_id p0; follower_id := Some i;
            leader_serial_id := leader_serial_id p0 |} = value.
Proof.
  unfold select_follower. destruct (find_index value robots) as [i|] eqn:Hf; [|discriminate].
  intros H. injection H as <-.
  destruct (find_index_found value robots i Hf) as (r & Hr & Hd).
  exists i, r. repeat split; try assumption.
  unfold follower_value. simpl. rewrite Hr. unfold name_or. rewrite Hd.
  destruct (String.eqb_spec value ""); [symmetry; assumption|reflexivity].
Qed.

(** A robot without a device name is offered under the value "Undefined
    port"; unless a connected robot really has that device name, choosing it
    as leader or as follower changes nothing. *)
Theorem nameless_robot_cannot_be_chosen (st : State) (r : Robot) :
  device_name r = None \/ device_name r = Some "" ->
  (forall r', In r' (connectedRobots st) -> device_name r' <> Some "Undefined port") ->
  item_value r = "Undefined port"
  /\ step (LeaderChosen (item_value r)) st = st
  /\ step (FollowerChosen (item_value r)) st = st.
Proof.
  intros Hnone Hn.
  assert (Hv : item_value r = "Undefined port").
  { unfold item_value, name_or. destruct Hnone as [-> | ->]; reflexivity. }
  rewrite Hv. split; [reflexivity|].
  destruct st as [robots pairs]. destruct pairs as [|p0 rest]; [split; reflexivity|].
  cbn [connectedRobots] in Hn. unfold step. cbn [robotPairs connectedRobots].
  unfold select_leader, select_follower, find_index.
  rewrite (find_from_none "Undefined port" robots 0 Hn). split; reflexivity.
Qed.

Lemma default_pairs_one (robots : list Robot) (p0 : RobotPair) :
  match default_pairs robots p0 with
  | Some (pairs, _) => exists p, pairs = [p]
  | None => True
  end.
Proof.
  unfold default_pairs.
  destruct ((Z.of_nat (List.length robots) >=? 2)
            && match leader_id p0 with None => true | Some _ => false end
            && match follower_id p0 with None => true | Some _ => false end).
  - eexists. reflexivity.
  - destruct (Z.of_nat (List.length robots) =? 1); [eexists; reflexivity|].
    destruct (Z.of_nat (List.length robots) =? 0); [eexists; reflexivity|exact I].
Qed.

Lemma step_one_pair (e : Event) (st : State) :
  (exists p, robotPairs st = [p]) -> exists p, robotPairs (step e st) = [p].
Proof.
  intros [p Hp]. destruct st as [robots pairs]. cbn [robotPairs] in Hp. subst pairs.
  unfold step. cbn [robotPairs connectedRobots].
  destruct e as [rs| |value|value].
  - pose proof (default_pairs_one rs p) as H.
    destruct (default_pairs rs p) as [[ps ids]|]; cbn [option_map fst apply robotPairs].
    + exact H.
    + exists p. reflexivity.
  - pose proof (default_pairs_one robots p) as H.
    destruct (default_pairs robots p) as [[ps ids]|]; cbn [option_map fst apply robotPairs].
    + exact H.
    + exists p. reflexivity.
  - unfold select_leader. destruct (find_index value robots); eexists; reflexivity.
  - unfold select_follower. destruct (find_index value robots); eexists; reflexivity.
Qed.

(** Whatever the status updates and the choices made, [robotPairs] holds
    exactly one pair, so that [robotPairs[0]] is always defined. *)
Theorem robot_pairs_is_one_pair (events : list Event) :
  exists p, robotPairs (run events initial) = [p].
Proof.
  assert (H : forall st, (exists p, robotPairs st = [p]) ->
                         exists p, robotPairs (run events st) = [p]).
  { induction events as [|e rest IH]; intros st Hst; [exact Hst|].
    simpl. apply IH. apply step_one_pair. exact Hst. }
  apply H. exists unselected. reflexivity.
Qed.

End DashboardFacts.

(** ** Instances *)

Lemma burst_issues_at_most_one_request_witness :
  (Forall Capture.clock_ok burst_of_frames /\ Forall (in_burst 1000) burst_of_frames)
  /\ count is_draw (snd (Capture.run burst_of_frames Capture.initial)) = 20%nat
  /\ (List.length (issue_times (snd (Capture.run burst_of_frames Capture.initial))) <= 1)%nat.
Proof.
  assert (Hok : Forall Capture.clock_ok burst_of_frames).
  { unfold burst_of_frames. simpl. repeat constructor; simpl; lia. }
  assert (Hb : Forall (in_burst 1000) burst_of_frames).
  { unfold burst_of_frames. simpl. repeat constructor; simpl; lia. }
  split; [split; assumption|]. split; [reflexivity|].
  apply (burst_issues_at_most_one_request 1000 burst_of_frames Hok Hb).
Defined.

Lemma nothing_runs_without_camera_witness :
  without_camera (fst (Capture.run camera_denied Capture.initial)) = true
  /\ error (Capture.hooks (fst (Capture.run camera_denied Capture.initial)))
     = Some "Failed to access camera"
  /\ count is_draw (snd (Capture.run camera_denied Capture.initial)) = 0%nat.
Proof.
  split; [reflexivity|]. split; [reflexivity|].
  apply (nothing_runs_without_camera camera_denied). reflexivity.
Defined.

Lemma no_request_after_unmount_witness :
  let st := fst (Capture.run (first_request ++ [Capture.Unmount]) Capture.initial) in
  Capture.phase st = Capture.Gone
  /\ count is_draw (snd (Capture.run after_teardown st)) = 5%nat
  /\ issue_times (snd (Capture.run after_teardown st)) = [].
Proof.
  split; [reflexivity|]. split; [reflexivity|].
  apply (no_request_after_unmount (first_request ++ [Capture.Unmount]) after_teardown).
  reflexivity.
Defined.

Lemma chosen_pair_survives_effect_witness :
  let st := Dashboard.step (Dashboard.FollowerChosen "/dev/ttyACM1")
              {| Dashboard.connectedRobots := three_robots;
                 Dashboard.robotPairs := [Dashboard.unselected] |} in
  Dashboard.robotPairs st
  = [{| Dashboard.leader_id := None; Dashboard.follower_id := Some 1;
        Dashboard.leader_serial_id := "" |}]
  /\ Dashboard.step Dashboard.EffectRuns st = st.
Proof.
  split; [reflexivity|].
  apply (chosen_pair_survives_effect _
           {| Dashboard.leader_id := None; Dashboard.follower_id := Some 1;
              Dashboard.leader_serial_id := "" |} []).
  - simpl. lia.
  - reflexivity.
  - right. discriminate.
Defined.

Lemma select_leader_round_trip_witness :
  Dashboard.select_leader "/dev/ttyACM1" three_robots Dashboard.unselected
  = Some [{| Dashboard.leader_id := Some 1; Dashboard.follower_id := None;
             Dashboard.leader_serial_id := "/dev/ttyACM1" |}]
  /\ exists i r,
       Dashboard.at_index three_robots i = Some r
       /\ Dashboard.device_name r = Some "/dev/ttyACM1".
Proof.
  split; [reflexivity|].
  destruct (select_leader_round_trip "/dev/ttyACM1" three_robots Dashboard.unselected _
              eq_refl) as (i & r & _ & H1 & H2 & _).
  exists i, r. split; assumption.
Defined.

Lemma select_follower_round_trip_witness :
  Dashboard.select_follower "/dev/ttyACM0" three_robots Dashboard.unselected
  = Some [{| Dashboard.leader_id := None; Dashboard.follower_id := Some 0;
             Dashboard.leader_serial_id := "" |}]
  /\ exists i r,
       Dashboard.at_index three_robots i = Some r
       /\ Dashboard.device_name r = Some "/dev/ttyACM0".
Proof.
  split; [reflexivity|].
  destruct (select_follower_round_trip "/dev/ttyACM0" three_robots Dashboard.unselected _
              eq_refl) as (i & r & _ & H1 & H2 & _).
  exists i, r. split; assumption.
Defined.

Lemma nameless_robot_cannot_be_chosen_witness :
  let st := Dashboard.step (Dashboard.Status three_robots) Dashboard.initial in
  let r := {| Dashboard.name := "unknown"; Dashboard.device_name := None |} in
  In r (Dashboard.connectedRobots st)
  /\ Dashboard.item_value r = "Undefined port"
  /\ Dashboard.step (Dashboard.LeaderChosen (Dashboard.item_value r)) st = st
  /\ Dashboard.step (Dashboard.FollowerChosen (Dashboard.item_value r)) st = st.
Proof.
  split; [right; right; left; reflexivity|].
  apply (nameless_robot_cannot_be_chosen
           (Dashboard.step (Dashboard.Status three_robots) Dashboard.initial)
           {| Dashboard.name := "unknown"; Dashboard.device_name := None |}).
  - left. reflexivity.
  - intros r' [<-|[<-|[<-|[]]]]; discriminate.
Defined.
